(** * HMLasso: Lasso with high missing rate -- a shallow embedding

    The development follows [src/HMLasso.py].  The estimator is a Python
    object whose methods mutate [self]; the numerical work is done by numpy
    (array arithmetic), LAPACK ([np.linalg.eig]) and cvxpy/SCS (the two
    convex programs).

    - float64 values are embedded as the extended reals with a NaN marker:
      a finite value carries the real number it denotes.  Arithmetic on
      finite values is exact: rounding, overflow to an infinity and the
      sign of zero are not represented.  A statement that a computed value
      is a finite number is therefore made only under a bound on the
      magnitudes that keeps float64 away from overflow, or about the
      operation's own contribution (a division by a count of at least 1).
    - an [ndarray] is its shape together with its index function.
    - [self] is a record threaded through a state-and-exception monad in
      which the state survives a raised exception, as a Python object does.
    - the eigen-solver and the convex solver are parameters of the
      development: they are libraries the source calls, not code of it.
    - the [print] calls, which only write to the standard output, are left
      out.
    - [get_Xy] takes its two random draws as arguments.  The script under
      [__main__], which runs scikit-learn's scaler over fresh draws in a
      loop that swallows every exception, is not part of the development. *)

From Stdlib Require Import Reals Lra Lia ZArith List String Bool Arith.
Import ListNotations.

Set Implicit Arguments.

(** * Part I: the program *)

(** ** Decisions on real numbers, as booleans *)

Definition Req_b (a b : R) : bool := if Req_dec_T a b then true else false.
Definition Rlt_b (a b : R) : bool := if Rlt_dec a b then true else false.
Definition Rle_b (a b : R) : bool := if Rle_dec a b then true else false.

(** ** float64 *)

Inductive float64 : Type :=
| NaN
| PInf
| NInf
| Fin (r : R).

Definition sign (x : float64) : comparison :=
  match x with
  | NaN => Eq
  | PInf => Gt
  | NInf => Lt
  | Fin r => if Rlt_b 0 r then Gt else if Rlt_b r 0 then Lt else Eq
  end.

Definition signed_inf (c : comparison) : float64 :=
  match c with Gt => PInf | Lt => NInf | Eq => NaN end.

Definition mul_sign (a b : comparison) : comparison :=
  match a, b with
  | Eq, _ | _, Eq => Eq
  | Gt, Gt | Lt, Lt => Gt
  | Gt, Lt | Lt, Gt => Lt
  end.

Definition isnan (x : float64) : bool :=
  match x with NaN => true | _ => false end.

Definition isfinite (x : float64) : bool :=
  match x with Fin _ => true | _ => false end.

Definition fneg (x : float64) : float64 :=
  match x with
  | NaN => NaN
  | PInf => NInf
  | NInf => PInf
  | Fin r => Fin (- r)
  end.

Definition fadd (x y : float64) : float64 :=
  match x, y with
  | NaN, _ | _, NaN => NaN
  | PInf, NInf | NInf, PInf => NaN
  | PInf, _ | _, PInf => PInf
  | NInf, _ | _, NInf => NInf
  | Fin a, Fin b => Fin (a + b)
  end.

Definition fsub (x y : float64) : float64 := fadd x (fneg y).

Definition fmul (x y : float64) : float64 :=
  match x, y with
  | NaN, _ | _, NaN => NaN
  | Fin a, Fin b => Fin (a * b)
  | _, _ => signed_inf (mul_sign (sign x) (sign y))
  end.

(** True division.  A zero divisor gives NaN for 0/0 and an infinity
    otherwise; numpy emits a RuntimeWarning there and raises nothing. *)
Definition fdiv (x y : float64) : float64 :=
  match x, y with
  | NaN, _ | _, NaN => NaN
  | Fin a, Fin b =>
      if Req_b b 0 then signed_inf (sign x) else Fin (a / b)
  | Fin _, _ => Fin 0
  | _, Fin b => if Rlt_b b 0 then fneg x else x
  | _, _ => NaN
  end.

Definition fabs (x : float64) : float64 :=
  match x with
  | NaN => NaN
  | PInf | NInf => PInf
  | Fin r => Fin (Rabs r)
  end.

(** Comparisons: every ordered comparison with NaN is False, [!=] is True. *)
Definition flt (x y : float64) : bool :=
  match x, y with
  | NaN, _ | _, NaN => false
  | PInf, _ => false
  | _, NInf => false
  | NInf, _ => true
  | _, PInf => true
  | Fin a, Fin b => Rlt_b a b
  end.

Definition fgt (x y : float64) : bool := flt y x.

Definition feq (x y : float64) : bool :=
  match x, y with
  | NaN, _ | _, NaN => false
  | PInf, PInf | NInf, NInf => true
  | Fin a, Fin b => Req_b a b
  | _, _ => false
  end.

Definition fne (x y : float64) : bool := negb (feq x y).

Definition fge (x y : float64) : bool := flt y x || feq x y.

Definition of_Z (z : Z) : float64 := Fin (IZR z).
Definition of_nat (n : nat) : float64 := Fin (INR n).

(** Largest finite double, (2^53 - 1) * 2^971. *)
Definition DBL_MAX : R := IZR ((2 ^ 53 - 1) * 2 ^ 971).

(** C99 [pow], which [np.power] applies elementwise on float64. *)
Definition is_integer (a : R) : bool := Req_b (IZR (Int_part a)) a.
Definition is_odd_integer (a : R) : bool := is_integer a && Z.odd (Int_part a).

Definition pow (x y : float64) : float64 :=
  match x, y with
  | _, Fin b =>
      if Req_b b 0 then Fin 1 else
      match x with
      | NaN => NaN
      | PInf => if Rlt_b b 0 then Fin 0 else PInf
      | NInf => if Rlt_b b 0 then Fin 0
                else if is_odd_integer b then NInf else PInf
      | Fin a =>
          if Rlt_b 0 a then Fin (Rpower a b)
          else if Req_b a 0 then (if Rlt_b b 0 then PInf else Fin 0)
          else if is_integer b then
                 Fin (if Z.odd (Int_part b) then - Rpower (- a) b
                      else Rpower (- a) b)
          else NaN
      end
  | Fin a, NaN => if Req_b a 1 then Fin 1 else NaN
  | _, NaN => NaN
  | NaN, _ => NaN
  | Fin a, PInf =>
      if Rlt_b (Rabs a) 1 then Fin 0
      else if Req_b (Rabs a) 1 then Fin 1 else PInf
  | Fin a, NInf =>
      if Rlt_b (Rabs a) 1 then PInf
      else if Req_b (Rabs a) 1 then Fin 1 else Fin 0
  | _, PInf => PInf
  | _, NInf => Fin 0
  end.

(** ** ndarray *)

Record ndarray1 (A : Type) : Type := mk1 {
  size : nat;
  item1 : nat -> A
}.

Record ndarray2 (A : Type) : Type := mk2 {
  shape0 : nat;
  shape1 : nat;
  item : nat -> nat -> A
}.

Definition vector := ndarray1 float64.
Definition matrix := ndarray2 float64.

Definition of_list (A : Type) (d : A) (l : list A) : ndarray1 A :=
  mk1 (List.length l) (fun i => nth i l d).

Definition of_rows (A : Type) (d : A) (p : nat) (rows : list (list A))
  : ndarray2 A :=
  mk2 (List.length rows) p (fun k i => nth i (nth k rows []) d).

(** Sums of [n] terms, for [np.dot] and [mean].  The terms are added in
    index order; in exact arithmetic the order BLAS or numpy picks gives the
    same number. *)
Fixpoint fsum (f : nat -> float64) (n : nat) : float64 :=
  match n with
  | O => Fin 0
  | S k => fadd (fsum f k) (f k)
  end.

Fixpoint isum (f : nat -> Z) (n : nat) : Z :=
  match n with
  | O => 0%Z
  | S k => (isum f k + f k)%Z
  end.

Fixpoint any_below (f : nat -> bool) (n : nat) : bool :=
  match n with
  | O => false
  | S k => any_below f k || f k
  end.

(** The numpy functions the source calls. *)
Module np.

Definition map2d (A B : Type) (f : A -> B) (X : ndarray2 A) : ndarray2 B :=
  mk2 (shape0 X) (shape1 X) (fun k i => f (item X k i)).

(** [np.nan_to_num]: NaN becomes 0, the infinities the largest finite
    doubles. *)
Definition nan_to_num1 (x : float64) : float64 :=
  match x with
  | NaN => Fin 0
  | PInf => Fin DBL_MAX
  | NInf => Fin (- DBL_MAX)
  | Fin r => Fin r
  end.

Definition nan_to_num (X : matrix) : matrix := map2d nan_to_num1 X.

(** [Z != 0] *)
Definition ne0 (X : matrix) : ndarray2 bool :=
  map2d (fun z => fne z (Fin 0)) X.

(** [.astype(int)] on a boolean array *)
Definition astype_int (B : ndarray2 bool) : ndarray2 Z :=
  map2d (fun b : bool => if b then 1%Z else 0%Z) B.

(** [.T] *)
Definition T (A : Type) (X : ndarray2 A) : ndarray2 A :=
  mk2 (shape1 X) (shape0 X) (fun i k => item X k i).

(** [np.dot] of two integer matrices, of a matrix and a vector, and of
    two matrices.  The inner dimension is read off the first argument;
    the callers below state where the shapes agree.  The integer product
    is on int64; its entries here are counts of rows, far below 2^63, so
    the wrap-around of int64 is never reached and [Z] is used as it is. *)
Definition dot_int (A B : ndarray2 Z) : ndarray2 Z :=
  mk2 (shape0 A) (shape1 B)
      (fun i j => isum (fun k => (item A i k * item B k j)%Z) (shape1 A)).

Definition dot_mv (A : matrix) (v : vector) : vector :=
  mk1 (shape0 A)
      (fun i => fsum (fun k => fmul (item A i k) (item1 v k)) (shape1 A)).

Definition dot_mm (A B : matrix) : matrix :=
  mk2 (shape0 A) (shape1 B)
      (fun i j => fsum (fun k => fmul (item A i k) (item B k j)) (shape1 A)).

(** [.diagonal()] *)
Definition diagonal (A : Type) (M : ndarray2 A) : ndarray1 A :=
  mk1 (Nat.min (shape0 M) (shape1 M)) (fun i => item M i i).

(** [np.divide(a, b, out=np.zeros(shape), where=(b != 0))] with an
    integer divisor: where the mask is False the entry of [out], 0.0, is
    left as it is. *)
Definition divide_where1 (p : nat) (a : vector) (b : ndarray1 Z) : vector :=
  mk1 p (fun i => if Z.eqb (item1 b i) 0 then Fin 0
                  else fdiv (item1 a i) (of_Z (item1 b i))).

Definition divide_where2 (p : nat) (a : matrix) (b : ndarray2 Z) : matrix :=
  mk2 p p (fun i j => if Z.eqb (item b i j) 0 then Fin 0
                      else fdiv (item a i j) (of_Z (item b i j))).

(** [R / n] for an integer array and a Python int: true division. *)
Definition true_divide (M : ndarray2 Z) (n : nat) : matrix :=
  map2d (fun c => fdiv (of_Z c) (of_nat n)) M.

(** [np.power(R, alpha)] *)
Definition power (M : matrix) (a : float64) : matrix :=
  map2d (fun x => pow x a) M.

(** [np.eye(p, p)] *)
Definition eye (p : nat) : matrix :=
  mk2 p p (fun i j => if Nat.eqb i j then Fin 1 else Fin 0).

(** [np.real] on an array whose entries are already real. *)
Definition real (X : matrix) : matrix := X.

(** [np.isnan(X).any()] *)
Definition isnan_any (X : matrix) : bool :=
  any_below (fun k => any_below (fun i => isnan (item X k i)) (shape1 X))
            (shape0 X).

(** [X[:, col].mean()]: the sum of the column over its length. *)
Definition column_mean (X : matrix) (col : nat) : float64 :=
  fdiv (fsum (fun k => item X k col) (shape0 X)) (of_nat (shape0 X)).

End np.

(** ** The parameter imputer, step by step *)

(** [Z = np.nan_to_num(X)] *)
Definition Z_of (X : matrix) : matrix := np.nan_to_num X.

(** [Y = (Z != 0).astype(int)] *)
Definition Y_of (X : matrix) : ndarray2 Z := np.astype_int (np.ne0 (Z_of X)).

(** [R = np.dot(Y.T, Y)], the count matrix before normalisation *)
Definition R_raw (X : matrix) : ndarray2 Z := np.dot_int (np.T (Y_of X)) (Y_of X).

(** ** Exceptions and results *)

Inductive exn : Type :=
| AssertionError (msg : string)
| AssertionError_dimension (given : nat) (expected : option nat)
    (* "Given data is of dimension {given}. Must have dimension {expected})." *)
| Exception_not_centered (col : nat) (current_mean : float64)
    (* "Data is not centered: column {col} has mean of {current_mean}" *)
| TypeError (msg : string)
| ValueError (msg : string)
| IndexError (msg : string)
| LinAlgError (msg : string)
| SolverError (msg : string).

Inductive result (A : Type) : Type :=
| Ok (a : A)
| Raise (e : exn).

Arguments Raise {A} e.

Definition is_ok (A : Type) (r : result A) : bool :=
  match r with Ok _ => true | Raise _ => false end.

(** ** What the external libraries hand back *)

(** An eigenvalue as [np.linalg.eig] returns it: complex when the matrix has
    complex eigenvalues, with a zero imaginary part otherwise. *)
Record complex : Type := mkC { re : float64; im : float64 }.

(** numpy orders complex numbers lexicographically. *)
Definition clt (a b : complex) : bool :=
  flt (re a) (re b) || (feq (re a) (re b) && flt (im a) (im b)).

(** The status cvxpy leaves in [prob.status] when [prob.solve] returns. *)
Inductive status : Type :=
| OPTIMAL
| OPTIMAL_INACCURATE
| INFEASIBLE
| INFEASIBLE_INACCURATE
| UNBOUNDED
| UNBOUNDED_INACCURATE
| USER_LIMIT.

Definition is_optimal (s : status) : bool :=
  match s with OPTIMAL => true | _ => false end.

(** A solve that returned: the status and the variable's [.value], which is
    None when the solver produced no point. *)
Record solved (A : Type) : Type := mkSolved {
  prob_status : status;
  value : option A
}.

(** [cp.psd_wrap] marks a constant as positive semi-definite for cvxpy; the
    matrix underneath is unchanged. *)
Inductive sigma_value : Type :=
| Plain (M : matrix)
| psd_wrap (M : matrix).

Definition unwrap (s : sigma_value) : matrix :=
  match s with Plain M => M | psd_wrap M => M end.

(** ** The estimator object *)

Module self.

Record HMLasso : Type := mkHMLasso {
  mu : float64;
  alpha : float64;
  verbose : bool;
  n : option nat;
  p : option nat;
  S_pair : option matrix;
  rho_pair : option vector;
  R : option matrix;
  Sigma_opt : option sigma_value;
  beta_opt : option vector;
  isFirstProblemSolved : bool;
  isSecondProblemSolved : bool;
  isFitted : bool
}.

End self.

Definition HMLasso : Type := self.HMLasso.

(** Attribute assignments, one per assignment statement of the source. *)
Definition set_n_p (n p : nat) (s : HMLasso) : HMLasso :=
  self.mkHMLasso (self.mu s) (self.alpha s) (self.verbose s)
    (Some n) (Some p)
    (self.S_pair s) (self.rho_pair s) (self.R s)
    (self.Sigma_opt s) (self.beta_opt s)
    (self.isFirstProblemSolved s) (self.isSecondProblemSolved s)
    (self.isFitted s).

Definition set_params (S : matrix) (rho : vector) (W : matrix) (s : HMLasso)
  : HMLasso :=
  self.mkHMLasso (self.mu s) (self.alpha s) (self.verbose s)
    (self.n s) (self.p s)
    (Some S) (Some rho) (Some W)
    (self.Sigma_opt s) (self.beta_opt s)
    (self.isFirstProblemSolved s) (self.isSecondProblemSolved s)
    (self.isFitted s).

Definition set_Sigma_opt (v : option sigma_value) (s : HMLasso) : HMLasso :=
  self.mkHMLasso (self.mu s) (self.alpha s) (self.verbose s)
    (self.n s) (self.p s)
    (self.S_pair s) (self.rho_pair s) (self.R s)
    v (self.beta_opt s)
    (self.isFirstProblemSolved s) (self.isSecondProblemSolved s)
    (self.isFitted s).

Definition set_beta_opt (v : option vector) (s : HMLasso) : HMLasso :=
  self.mkHMLasso (self.mu s) (self.alpha s) (self.verbose s)
    (self.n s) (self.p s)
    (self.S_pair s) (self.rho_pair s) (self.R s)
    (self.Sigma_opt s) v
    (self.isFirstProblemSolved s) (self.isSecondProblemSolved s)
    (self.isFitted s).

Definition set_isFirstProblemSolved (b : bool) (s : HMLasso) : HMLasso :=
  self.mkHMLasso (self.mu s) (self.alpha s) (self.verbose s)
    (self.n s) (self.p s)
    (self.S_pair s) (self.rho_pair s) (self.R s)
    (self.Sigma_opt s) (self.beta_opt s)
    b (self.isSecondProblemSolved s)
    (self.isFitted s).

Definition set_isSecondProblemSolved (b : bool) (s : HMLasso) : HMLasso :=
  self.mkHMLasso (self.mu s) (self.alpha s) (self.verbose s)
    (self.n s) (self.p s)
    (self.S_pair s) (self.rho_pair s) (self.R s)
    (self.Sigma_opt s) (self.beta_opt s)
    (self.isFirstProblemSolved s) b
    (self.isFitted s).

Definition set_isFitted (b : bool) (s : HMLasso) : HMLasso :=
  self.mkHMLasso (self.mu s) (self.alpha s) (self.verbose s)
    (self.n s) (self.p s)
    (self.S_pair s) (self.rho_pair s) (self.R s)
    (self.Sigma_opt s) (self.beta_opt s)
    (self.isFirstProblemSolved s) (self.isSecondProblemSolved s)
    b.

(** ** Methods run in a state-and-exception monad

    A method takes the object and returns its outcome together with the
    object as the call leaves it: what was assigned before an exception
    stays assigned. *)

Definition M (A : Type) : Type := HMLasso -> result A * HMLasso.

Definition ret (A : Type) (a : A) : M A := fun s => (Ok a, s).

Definition bind (A B : Type) (m : M A) (f : A -> M B) : M B :=
  fun s =>
    match m s with
    | (Ok a, s') => f a s'
    | (Raise e, s') => (Raise e, s')
    end.

Definition raise (A : Type) (e : exn) : M A := fun s => (Raise e, s).

Arguments raise {A} e.

Definition get : M HMLasso := fun s => (Ok s, s).

Definition assign (f : HMLasso -> HMLasso) : M unit := fun s => (Ok tt, f s).

Definition lift (A : Type) (r : result A) : M A := fun s => (r, s).

Definition assert (b : bool) (msg : string) : M unit :=
  if b then ret tt else raise (AssertionError msg).

Declare Scope method_scope.
Delimit Scope method_scope with method.
Notation "x <- c ;; k" := (bind c (fun x => k))
  (at level 61, c at next level, right associativity) : method_scope.
Notation "c ;; k" := (bind c (fun _ => k))
  (at level 61, right associativity) : method_scope.
Open Scope method_scope.

Definition is_some (A : Type) (o : option A) : bool :=
  match o with Some _ => true | None => false end.

(** The arrays [fit] is given for the labels: one- or two-dimensional. *)
Inductive labels : Type :=
| Labels1 (v : vector)
| Labels2 (m : matrix).

Definition labels_shape0 (y : labels) : nat :=
  match y with Labels1 v => size v | Labels2 m => shape0 m end.

(** What [predict] returns: the product vector, or the empty array of
    shape (n, p) that [np.dot] gives for an [X] without elements and a
    [beta_opt] that is None. *)
Inductive prediction : Type :=
| product (y_hat : vector)
| no_elements (n p : nat).

(** Python's [min] over a sequence: the first element that no later one is
    below; ValueError on an empty sequence. *)
Definition py_min (l : list complex) : result complex :=
  match l with
  | [] => Raise (ValueError "min() arg is an empty sequence")
  | c :: rest => Ok (fold_left (fun m x => if clt x m then x else m) rest c)
  end.

(** [__init__].  The isinstance assertions hold by typing: a Python int,
    bool or float is a [float64] here, the two flags are [bool]. *)
Definition init (mu alpha : float64) (fit_intercept verbose : bool)
  : result HMLasso :=
  if negb (fge mu (Fin 0)) then
    Raise (AssertionError "mu must be a positive number.")
  else if negb (fge alpha (Fin 0)) then
    Raise (AssertionError "alpha must be a positive number.")
  else
    Ok (self.mkHMLasso mu alpha verbose
          None None None None None None None
          false false false).

Section Estimator.

(** The global [ERRORS_HANDLING], read by [fit]. *)
Variable ERRORS_HANDLING : string.

(** [np.linalg.eig(M)[0]] *)
Variable eig : matrix -> result (list complex).

(** [prob.solve(solver=cp.SCS, verbose=...)] on the first program, built
    from [p], [R] and [S_pair], followed by reading [prob.status] and
    [Sigma.value]. *)
Variable solve_sdp :
  forall (p : nat) (R S_pair : matrix) (verbose : bool), result (solved matrix).

(** The same on the second program, built from [p], [Sigma_opt],
    [rho_pair] and [mu]. *)
Variable solve_qp_l1 :
  forall (p : nat) (Sigma_opt : sigma_value) (rho_pair : vector)
         (mu : float64) (verbose : bool), result (solved vector).

(** [__verify_centering__] *)
Definition tolerance : float64 := Fin (1 / 100000000).

Fixpoint first_off_center (X : matrix) (cols : list nat)
  : option (nat * float64) :=
  match cols with
  | [] => None
  | col :: rest =>
      let current_mean := np.column_mean X col in
      if fgt (fabs current_mean) tolerance then Some (col, current_mean)
      else first_off_center X rest
  end.

Definition verify_centering (X : matrix) : M unit :=
  s <- get ;;
  match self.p s with
  | None => raise (TypeError "'NoneType' object cannot be interpreted as an integer")
  | Some p =>
      match first_off_center X (seq 0 (Nat.min p (shape1 X))) with
      | Some (col, current_mean) =>
          raise (Exception_not_centered col current_mean)
      | None =>
          if Nat.ltb (shape1 X) p then
            raise (IndexError "index is out of bounds for axis 1")
          else ret tt
      end
  end.

(** [__impute_params__].  [np.dot(Y.T, Y)] and [np.dot(Z.T, Z)] have
    matching inner dimensions by construction; [np.dot(Z.T, y)] has them
    when [y] has as many entries as [X] has rows, which [fit] asserts.  The
    [out] arrays are shaped by [self.p], which [fit] has set to the number
    of columns of [X]; called with another [self.p], a call the source does
    not make, numpy would broadcast or raise, and the error is what is
    kept here. *)
Definition impute_params (X : matrix) (y : vector)
  : M (matrix * vector * matrix) :=
  s <- get ;;
  let Z := np.nan_to_num X in
  let Y := np.astype_int (np.ne0 Z) in
  let R := np.dot_int (np.T Y) Y in
  if negb (Nat.eqb (shape0 X) (size y)) then
    raise (ValueError "shapes not aligned")
  else
    match self.p s with
    | None => raise (TypeError "expected a sequence of integers or a single integer, got 'None'")
    | Some p =>
        if negb (Nat.eqb p (shape1 X)) then
          raise (ValueError "operands could not be broadcast together")
        else
          let rho_pair :=
            np.divide_where1 p (np.dot_mv (np.T Z) y) (np.diagonal R) in
          let S_pair := np.divide_where2 p (np.dot_mm (np.T Z) Z) R in
          match self.n s with
          | None => raise (TypeError "unsupported operand type(s) for /: 'int' and 'NoneType'")
          | Some n =>
              let R := np.true_divide R n in
              let R := np.power R (self.alpha s) in
              ret (S_pair, rho_pair, R)
          end
    end.

(** [__solve_first_problem__] *)
Definition solve_first_problem : M (option matrix) :=
  s <- get ;;
  assert (is_some (self.S_pair s))
    "Pairwise covariance matrix of features is not determined." ;;
  assert (is_some (self.rho_pair s))
    "Pairwise covariance vector of features and labels is not determined." ;;
  assert (is_some (self.R s)) "Weights are not determined." ;;
  match self.p s, self.R s, self.S_pair s with
  | Some p, Some R, Some S_pair =>
      prob <- lift (solve_sdp p R S_pair (self.verbose s)) ;;
      assign (set_isFirstProblemSolved true) ;;
      ret (value prob)
  | _, _, _ => raise (TypeError "shape of a Variable must be integers")
  end.

(** [__solve_second_problem__] *)
Definition solve_second_problem : M (option vector) :=
  s <- get ;;
  assert (is_some (self.S_pair s))
    "Pairwise covariance matrix of features is not determined." ;;
  assert (is_some (self.rho_pair s))
    "Pairwise covariance vector of features and labels is not determined." ;;
  assert (is_some (self.R s)) "Weights are not determined." ;;
  assert (self.isFirstProblemSolved s)
    " First optimization problem has not been solved." ;;
  assert (is_some (self.Sigma_opt s))
    "Sigma_opt is unknown. First optimization problem might have not been solved." ;;
  match self.p s, self.Sigma_opt s, self.rho_pair s with
  | Some p, Some Sigma_opt, Some rho_pair =>
      prob <- lift (solve_qp_l1 p Sigma_opt rho_pair (self.mu s)
                                (self.verbose s)) ;;
      assign (set_isSecondProblemSolved true) ;;
      ret (value prob)
  | _, _, _ => raise (TypeError "shape of a Variable must be integers")
  end.

(** The repair: the real part of
    [Sigma_opt - min_eigenvalue * np.eye(p, p)].  [Sigma_opt] and [np.eye]
    are real arrays.  The product of the complex scalar [mr + mi j] with
    the entry [e + 0j] has real part [mr * e - mi * 0], which is NaN when
    [mi] is not finite; the real part of the difference is the entry of
    [Sigma_opt] minus that, and the imaginary part is what [np.real]
    drops.  A real [min_eigenvalue] is the case [mi = 0]. *)
Definition shift (Sigma : matrix) (min_eigenvalue : complex) (p : nat)
  : matrix :=
  mk2 (shape0 Sigma) (shape1 Sigma)
      (fun i j =>
         fsub (item Sigma i j)
              (fsub (fmul (re min_eigenvalue) (item (np.eye p) i j))
                    (fmul (im min_eigenvalue) (Fin 0)))).

(** [fit].  The two type assertions hold by typing; the match on [y] is
    the assertion [len(y.shape) == 1]. *)
Definition fit (X : matrix) (y : labels) : M unit :=
  assert (Nat.eqb (shape0 X) (labels_shape0 y))
    "Features and labels shapes are not compatibles." ;;
  match y with
  | Labels2 _ => raise (AssertionError "Labels are not a vector.")
  | Labels1 y =>
      assign (set_n_p (shape0 X) (shape1 X)) ;;
      verify_centering X ;;
      params <- impute_params X y ;;
      (let '(S_pair, rho_pair, R) := params in
       assign (set_params S_pair rho_pair R)) ;;
      Sigma <- solve_first_problem ;;
      assign (set_Sigma_opt (option_map Plain Sigma)) ;;
      match Sigma with
      | None => raise (LinAlgError "0-dimensional array given. Array must be at least two-dimensional")
      | Some Sigma =>
          eigenvalues <- lift (eig Sigma) ;;
          min_eigenvalue <- lift (py_min eigenvalues) ;;
          s <- get ;;
          (if clt min_eigenvalue (mkC (Fin 0) (Fin 0)) then
             match self.p s with
             | Some p =>
                 assign (set_Sigma_opt
                           (Some (Plain (shift Sigma min_eigenvalue p))))
             | None => raise (TypeError "an integer is required")
             end
           else ret tt) ;;
          s <- get ;;
          assign (set_Sigma_opt
                    (option_map (fun v => Plain (np.real (unwrap v)))
                                (self.Sigma_opt s))) ;;
          s <- get ;;
          (if String.eqb ERRORS_HANDLING "ignore" then
             assign (set_Sigma_opt (option_map (fun v => psd_wrap (unwrap v))
                                               (self.Sigma_opt s)))
           else ret tt) ;;
          beta <- solve_second_problem ;;
          assign (set_beta_opt beta) ;;
          assign (set_isFitted true)
      end
  end.

(** [predict].  [np.dot(X, self.beta_opt)] with [beta_opt] a vector is
    the matrix-vector product.  With [beta_opt = None] numpy takes the
    second operand as a 0-d object array and multiplies elementwise:
    [float * None] raises TypeError at the first element, and an [X]
    without elements is returned as an empty array of its own shape. *)
Definition predict (X : matrix) : M prediction :=
  s <- get ;;
  assert (self.isFitted s) "The model has not yet been fitted." ;;
  (if match self.p s with
      | Some p => Nat.eqb (shape1 X) p
      | None => false
      end
   then ret tt
   else raise (AssertionError_dimension (shape1 X) (self.p s))) ;;
  assert (negb (np.isnan_any X)) "Input contains NaN." ;;
  match self.beta_opt s with
  | None =>
      if Nat.eqb (shape0 X) 0 || Nat.eqb (shape1 X) 0
      then ret (no_elements (shape0 X) (shape1 X))
      else raise (TypeError "unsupported operand type(s) for *: 'float' and 'NoneType'")
  | Some beta_opt =>
      if Nat.eqb (shape1 X) (size beta_opt)
      then ret (product (np.dot_mv X beta_opt))
      else raise (ValueError "shapes not aligned")
  end.

End Estimator.

(** ** The demonstration data *)

(** [get_Xy].  The two random draws are arguments: [rand] is what
    [np.random.rand(n, p)] returned, of shape (n, p) with entries in
    [0, 1), and [mask] what [np.random.choice([False, True], size=X.shape,
    p=(1 - replace_rate, replace_rate))] returned, of that shape;
    [np.random.choice] raises ValueError on probabilities outside [0, 1].
    The local [indices] is never read. *)
Definition labels_of (X : matrix) : vector :=
  mk1 (shape0 X)
      (fun k =>
         fadd (fadd (fadd (fsub (fmul (Fin 7) (item X k 0))
                                (fmul (Fin 2) (item X k 1)))
                          (fmul (Fin 5) (item X k 2)))
                    (fmul (Fin 19) (item X k 3)))
              (fmul (Fin 6) (item X k 4))).

(** [X[mask] = np.nan] *)
Definition put_nan (X : matrix) (mask : ndarray2 bool) : matrix :=
  mk2 (shape0 X) (shape1 X)
      (fun k i => if item mask k i then NaN else item X k i).

Definition get_Xy (rand : matrix) (mask : ndarray2 bool)
           (replace_rate : float64) : result (matrix * vector) :=
  let X := np.map2d (fun r => fmul (Fin 100) r) rand in
  if Nat.ltb (shape1 X) 5 then
    Raise (IndexError "index is out of bounds for axis 1")
  else
    let y := labels_of X in
    if negb (fge replace_rate (Fin 0) && fge (Fin 1) replace_rate) then
      Raise (ValueError "probabilities are not non-negative")
    else
      Ok (put_nan X mask, y).

(** * Part II: the vocabulary of the statements *)

(** ** Counting observations *)

(** Number of indices below [n] at which [f] holds. *)
Definition count_rows (f : nat -> bool) (n : nat) : Z :=
  isum (fun k => if f k then 1%Z else 0%Z) n.

(** An entry is present when it is not the missing marker. *)
Definition present (x : float64) : bool := negb (isnan x).

(** The count the data model describes: rows where both features are
    present. *)
Definition both_present_count (X : matrix) (i j : nat) : Z :=
  count_rows (fun k => present (item X k i) && present (item X k j))
             (shape0 X).

(** What the indicator [Y] marks: an entry that is present and not zero. *)
Definition counted (x : float64) : bool :=
  negb (isnan x) && fne x (Fin 0).

(** ** The imputed parameters *)

(** The three results of [__impute_params__], named after the locals. *)
Definition rho_pair_of (X : matrix) (y : vector) : vector :=
  np.divide_where1 (shape1 X) (np.dot_mv (np.T (Z_of X)) y)
                   (np.diagonal (R_raw X)).

Definition S_pair_of (X : matrix) : matrix :=
  np.divide_where2 (shape1 X) (np.dot_mm (np.T (Z_of X)) (Z_of X)) (R_raw X).

(** [R / self.n], before the power. *)
Definition R_normalized (X : matrix) : matrix :=
  np.true_divide (R_raw X) (shape0 X).

Definition R_of (X : matrix) (alpha : float64) : matrix :=
  np.power (R_normalized X) alpha.

(** The ordinary estimates over complete data, as the specification words
    them: (1/n) X^T X and (1/n) X^T y. *)
Definition complete_covariance (X : matrix) : matrix :=
  mk2 (shape1 X) (shape1 X)
      (fun i j => fmul (fdiv (Fin 1) (of_nat (shape0 X)))
                       (fsum (fun k => fmul (item X k i) (item X k j))
                             (shape0 X))).

Definition complete_cross_covariance (X : matrix) (y : vector) : vector :=
  mk1 (shape1 X)
      (fun i => fmul (fdiv (Fin 1) (of_nat (shape0 X)))
                     (fsum (fun k => fmul (item X k i) (item1 y k))
                           (shape0 X))).

(** Equality of float64 values as numbers. *)
Definition same_number (x y : float64) : Prop :=
  match x, y with
  | Fin a, Fin b => a = b
  | NaN, NaN | PInf, PInf | NInf, NInf => True
  | _, _ => False
  end.

(** A number between 0 and 1, bounds included. *)
Definition in_unit_interval (x : float64) : bool :=
  match x with
  | Fin r => Rle_b 0 r && Rle_b r 1
  | _ => false
  end.

(** ** The object along a [fit] call *)

(** [X] passes [__verify_centering__]. *)
Definition centered (X : matrix) : Prop :=
  first_off_center X (seq 0 (shape1 X)) = None.

(** A state as [fit] has it when it calls [__impute_params__] on [X]. *)
Definition prepared (mu alpha : float64) (verbose : bool) (X : matrix)
  : HMLasso :=
  set_n_p (shape0 X) (shape1 X)
          (self.mkHMLasso mu alpha verbose
             None None None None None None None false false false).

(** The object at the successive points of a [fit] call. *)
Definition after_checks (X : matrix) (s : HMLasso) : HMLasso :=
  set_n_p (shape0 X) (shape1 X) s.

Definition after_impute (X : matrix) (y : vector) (s : HMLasso) : HMLasso :=
  set_params (S_pair_of X) (rho_pair_of X y) (R_of X (self.alpha s))
             (after_checks X s).

Definition after_first_solve (X : matrix) (y : vector) (v : option matrix)
           (s : HMLasso) : HMLasso :=
  set_Sigma_opt (option_map Plain v)
                (set_isFirstProblemSolved true (after_impute X y s)).

Definition repaired (ERRORS_HANDLING : string) (Sigma : matrix)
           (min_eigenvalue : complex) (p : nat) : sigma_value :=
  let M := if clt min_eigenvalue (mkC (Fin 0) (Fin 0))
           then shift Sigma min_eigenvalue p else Sigma in
  if String.eqb ERRORS_HANDLING "ignore" then psd_wrap M else Plain M.

Definition after_repair (ERRORS_HANDLING : string) (X : matrix) (y : vector)
           (Sigma : matrix) (min_eigenvalue : complex) (s : HMLasso)
  : HMLasso :=
  set_Sigma_opt
    (Some (repaired ERRORS_HANDLING Sigma min_eigenvalue (shape1 X)))
    (after_first_solve X y (Some Sigma) s).

Definition fitted (ERRORS_HANDLING : string) (X : matrix) (y : vector)
           (Sigma : matrix) (min_eigenvalue : complex) (beta : option vector)
           (s : HMLasso) : HMLasso :=
  set_isFitted true
    (set_beta_opt beta
       (set_isSecondProblemSolved true
          (after_repair ERRORS_HANDLING X y Sigma min_eigenvalue s))).

Section Runs.

Variable ERRORS_HANDLING : string.
Variable eig : matrix -> result (list complex).
Variable solve_sdp : nat -> matrix -> matrix -> bool -> result (solved matrix).
Variable solve_qp_l1 :
  nat -> sigma_value -> vector -> float64 -> bool -> result (solved vector).

(** The arguments the two solver calls of a [fit] on [X], [y] receive. *)
Definition first_solve (X : matrix) (s : HMLasso) : result (solved matrix) :=
  solve_sdp (shape1 X) (R_of X (self.alpha s)) (S_pair_of X) (self.verbose s).

Definition second_solve (X : matrix) (y : vector) (Sigma : matrix)
           (min_eigenvalue : complex) (s : HMLasso) : result (solved vector) :=
  solve_qp_l1 (shape1 X)
              (repaired ERRORS_HANDLING Sigma min_eigenvalue (shape1 X))
              (rho_pair_of X y) (self.mu s) (self.verbose s).

(** Where a [fit] that passed its checks can end. *)
Inductive fit_end (X : matrix) (y : vector) (s : HMLasso)
  : result unit * HMLasso -> Prop :=
| end_first_solve e :
    first_solve X s = Raise e ->
    fit_end X y s (Raise e, after_impute X y s)
| end_no_value st :
    first_solve X s = Ok (mkSolved st None) ->
    fit_end X y s
      (Raise (LinAlgError "0-dimensional array given. Array must be at least two-dimensional"),
       after_first_solve X y None s)
| end_eig st Sigma e :
    first_solve X s = Ok (mkSolved st (Some Sigma)) ->
    eig Sigma = Raise e \/ (exists evs, eig Sigma = Ok evs /\ py_min evs = Raise e) ->
    fit_end X y s (Raise e, after_first_solve X y (Some Sigma) s)
| end_second_solve st Sigma evs m e :
    first_solve X s = Ok (mkSolved st (Some Sigma)) ->
    eig Sigma = Ok evs ->
    py_min evs = Ok m ->
    second_solve X y Sigma m s = Raise e ->
    fit_end X y s (Raise e, after_repair ERRORS_HANDLING X y Sigma m s)
| end_fitted st1 st2 Sigma evs m beta :
    first_solve X s = Ok (mkSolved st1 (Some Sigma)) ->
    eig Sigma = Ok evs ->
    py_min evs = Ok m ->
    second_solve X y Sigma m s
      = Ok (mkSolved st2 beta) ->
    fit_end X y s (Ok tt, fitted ERRORS_HANDLING X y Sigma m beta s).

(** A sequence of [predict] calls, each on the object the previous one
    left, the caller going on after an exception. *)
Fixpoint predict_each (Xs : list matrix) (s : HMLasso)
  : list (result prediction) * HMLasso :=
  match Xs with
  | [] => ([], s)
  | X :: rest =>
      let (r, s1) := predict X s in
      let (rs, s2) := predict_each rest s1 in
      (r :: rs, s2)
  end.

(** Construct, fit once, predict on each of [Xs]: the outcome of [fit],
    the outcomes of the predictions, and the object at the end. *)
Definition session (mu alpha : float64) (fit_intercept verbose : bool)
           (X : matrix) (y : labels) (Xs : list matrix)
  : result (result unit * list (result prediction) * HMLasso) :=
  match init mu alpha fit_intercept verbose with
  | Raise e => Raise e
  | Ok s0 =>
      let (r, s1) := fit ERRORS_HANDLING eig solve_sdp solve_qp_l1 X y s0 in
      let (rs, s2) := predict_each Xs s1 in
      Ok (r, rs, s2)
  end.

End Runs.

(** ** Eigenvalues in exact arithmetic *)

(** The real number a finite float64 denotes. *)
Definition val (x : float64) : R :=
  match x with Fin r => r | _ => 0%R end.

Fixpoint rsum (g : nat -> R) (n : nat) : R :=
  match n with
  | O => 0%R
  | S k => (rsum g k + g k)%R
  end.

Definition finite_square (M : matrix) (p : nat) : Prop :=
  shape0 M = p /\ shape1 M = p /\
  forall i j, i < p -> j < p -> isfinite (item M i j) = true.

Definition symmetric (M : matrix) : Prop :=
  shape0 M = shape1 M /\
  forall i j, i < shape0 M -> j < shape0 M -> item M i j = item M j i.

(** [v] is an eigenvector of [M] for the real eigenvalue [lam]. *)
Definition eigenpair (M : matrix) (lam : R) (v : nat -> R) : Prop :=
  (exists i, i < shape1 M /\ v i <> 0%R) /\
  forall i, i < shape0 M ->
    fsum (fun j => fmul (item M i j) (Fin (v j))) (shape1 M)
    = Fin (lam * v i).

(** ** Concrete inputs and stand-ins for the external calls *)

(** A centered 2 x 2 input whose second feature is observed as 0.0 in both
    rows. *)
Definition X_zero_column : matrix :=
  of_rows NaN 2 [[Fin 1; Fin 0]; [Fin (-1); Fin 0]].

Definition y_12 : vector := of_list NaN [Fin 1; Fin 2].

(** A centered single feature observed as 2, 0, -2, with labels 1, 0, -1:
    nothing is missing. *)
Definition X_with_zero : matrix :=
  of_rows NaN 1 [[Fin 2]; [Fin 0]; [Fin (-2)]].

Definition y_with_zero : vector := of_list NaN [Fin 1; Fin 0; Fin (-1)].

(** A matrix with one feature and no observation, and its labels. *)
Definition X_no_rows : matrix := of_rows NaN 1 [].
Definition y_no_rows : vector := of_list NaN [].

(** One centered feature observed as 1 and -1, with two labels. *)
Definition X_pm1 : matrix := of_rows NaN 1 [[Fin 1]; [Fin (-1)]].
Definition y_35 : vector := of_list NaN [Fin 3; Fin 5].

(** The same labels with the first one missing. *)
Definition y_nan5 : vector := of_list NaN [NaN; Fin 5].

(** One feature observed as 1 and 3: its mean is 2. *)
Definition X_off_center : matrix := of_rows NaN 1 [[Fin 1]; [Fin 3]].

(** [HMLasso()] with the default arguments. *)
Definition fresh : HMLasso :=
  self.mkHMLasso (Fin 1) (Fin 1) false
                 None None None None None None None false false false.

(** Stand-ins for the external calls: an eigenvalue routine that is exact
    on diagonal matrices, and solvers that return a given status with the
    identity matrix, respectively a given vector, as value. *)
Definition eig_of_diagonal (M : matrix) : result (list complex) :=
  Ok (map (fun i => mkC (item M i i) (Fin 0)) (seq 0 (shape0 M))).

Definition sdp_returns (st : status) (p : nat) (R S_pair : matrix)
           (verbose : bool) : result (solved matrix) :=
  Ok (mkSolved st (Some (np.eye p))).

Definition qp_returns (st : status) (beta : option vector) (p : nat)
           (Sigma_opt : sigma_value) (rho_pair : vector) (mu : float64)
           (verbose : bool) : result (solved vector) :=
  Ok (mkSolved st beta).

Definition beta_2 : vector := of_list NaN [Fin 2].

(** The object after a completed [fit] of [fresh] on [X_pm1], [y_35] in
    which the solvers returned the identity and [beta_2]. *)
Definition fitted_pm1 : HMLasso :=
  fitted "raise" X_pm1 y_35 (np.eye 1) (mkC (Fin 1) (Fin 0)) (Some beta_2)
         fresh.

(** ** More vocabulary *)

(** A number that passes [>= 0]: a non-negative real or plus infinity. *)
Definition nonnegative (x : float64) : Prop :=
  match x with
  | Fin r => (0 <= r)%R
  | PInf => True
  | _ => False
  end.

(** The test [__verify_centering__] applies to a column. *)
Definition off_center (X : matrix) (col : nat) : bool :=
  fgt (fabs (np.column_mean X col)) tolerance.

(** No entry of feature [i] is counted: each is missing or zero. *)
Definition never_counted (X : matrix) (i : nat) : Prop :=
  forall k, k < shape0 X -> counted (item X k i) = false.

Definition same_hyperparameters (s1 s2 : HMLasso) : Prop :=
  self.mu s1 = self.mu s2 /\
  self.alpha s1 = self.alpha s2 /\
  self.verbose s1 = self.verbose s2.

(** A complex number with finite parts, and the lexicographic order on
    such numbers. *)
Definition finite_complex (c : complex) : Prop :=
  isfinite (re c) = true /\ isfinite (im c) = true.

Definition lex_lt (a b : complex) : Prop :=
  (val (re a) < val (re b))%R \/
  (val (re a) = val (re b) /\ (val (im a) < val (im b))%R).

(** Further concrete inputs. *)
Definition X_nan_columns : matrix :=
  of_rows NaN 2 [[NaN; Fin 1000]; [Fin 5; NaN]].

Definition X_nan_column : matrix :=
  of_rows NaN 2 [[Fin 1; NaN]; [Fin (-1); NaN]].

Definition y_2d : matrix := of_rows NaN 1 [[Fin 3]; [Fin 5]].

(** A symmetric matrix with eigenvalues 3 and -1, the list of these two,
    and an eigenvalue routine that returns a given list. *)
Definition Sigma_12 : matrix := of_rows NaN 2 [[Fin 1; Fin 2]; [Fin 2; Fin 1]].

Definition eigenvalues_12 : list complex :=
  [mkC (Fin 3) (Fin 0); mkC (Fin (-1)) (Fin 0)].

Definition eig_returns (evs : list complex) (M : matrix)
  : result (list complex) := Ok evs.

Definition beta_20 : vector := of_list NaN [Fin 2; Fin 0].

Definition sdp_returns_matrix (st : status) (Sigma : matrix) (p : nat)
           (R S_pair : matrix) (verbose : bool) : result (solved matrix) :=
  Ok (mkSolved st (Some Sigma)).

Definition rand_5 : matrix :=
  of_rows NaN 5 [[Fin (1 / 2); Fin 0; Fin (1 / 4); Fin (3 / 4); Fin (1 / 8)]].

Definition mask_5 : ndarray2 bool :=
  of_rows false 5 [[true; false; false; true; false]].

(** What [np.random.rand] returns: every entry is a number in [0, 1). *)
Definition uniform_draws (M : matrix) : Prop :=
  forall k i, k < shape0 M -> i < shape1 M ->
    exists r, item M k i = Fin r /\ (0 <= r < 1)%R.

(** * Part III: properties *)

(** ** Evaluating decisions and running methods *)

Lemma Req_b_true (a b : R) : Req_b a b = true <-> a = b.
Proof. unfold Req_b; destruct (Req_dec_T a b); split; congruence. Qed.

Lemma Req_b_false (a b : R) : Req_b a b = false <-> a <> b.
Proof. unfold Req_b; destruct (Req_dec_T a b); split; congruence. Qed.

Lemma Rlt_b_true (a b : R) : Rlt_b a b = true <-> (a < b)%R.
Proof. unfold Rlt_b; destruct (Rlt_dec a b); split; intros; congruence. Qed.

Lemma Rlt_b_false (a b : R) : Rlt_b a b = false <-> ~ (a < b)%R.
Proof. unfold Rlt_b; destruct (Rlt_dec a b); split; intros; congruence. Qed.

Lemma Rle_b_true (a b : R) : Rle_b a b = true <-> (a <= b)%R.
Proof. unfold Rle_b; destruct (Rle_dec a b); split; intros; congruence. Qed.

Lemma Rle_b_false (a b : R) : Rle_b a b = false <-> ~ (a <= b)%R.
Proof. unfold Rle_b; destruct (Rle_dec a b); split; intros; congruence. Qed.

Ltac Rdecide :=
  repeat match goal with
  | |- context [Req_b ?a ?b] =>
      first [ replace (Req_b a b) with true
                by (symmetry; apply Req_b_true; lra)
            | replace (Req_b a b) with false
                by (symmetry; apply Req_b_false; lra) ]
  | |- context [Rlt_b ?a ?b] =>
      first [ replace (Rlt_b a b) with true
                by (symmetry; apply Rlt_b_true; lra)
            | replace (Rlt_b a b) with false
                by (symmetry; apply Rlt_b_false; lra) ]
  | |- context [Rle_b ?a ?b] =>
      first [ replace (Rle_b a b) with true
                by (symmetry; apply Rle_b_true; lra)
            | replace (Rle_b a b) with false
                by (symmetry; apply Rle_b_false; lra) ]
  end.

Ltac mrun :=
  cbv beta iota zeta delta
    [bind assert assign lift get ret raise is_some option_map value
     self.mu self.alpha self.verbose self.n self.p self.S_pair
     self.rho_pair self.R self.Sigma_opt self.beta_opt
     self.isFirstProblemSolved self.isSecondProblemSolved self.isFitted
     set_n_p set_params set_Sigma_opt set_beta_opt set_isFirstProblemSolved
     set_isSecondProblemSolved set_isFitted labels_shape0 unwrap np.real
     after_checks after_impute after_first_solve after_repair fitted
     repaired].

Ltac mrun_in H :=
  cbv beta iota zeta delta
    [self.mu self.alpha self.verbose self.n self.p self.S_pair
     self.rho_pair self.R self.Sigma_opt self.beta_opt
     self.isFirstProblemSolved self.isSecondProblemSolved self.isFitted] in H.

Ltac munfold :=
  cbv beta iota zeta delta [bind assert assign lift get ret raise is_some].

Lemma DBL_MAX_pos : (0 < DBL_MAX)%R.
Proof. unfold DBL_MAX. apply IZR_lt. reflexivity. Qed.

Lemma isum_ext (f g : nat -> Z) (n : nat) :
  (forall k, k < n -> f k = g k) -> isum f n = isum g n.
Proof.
  induction n as [|n IH]; intros H; simpl; [reflexivity|].
  rewrite IH by (intros; apply H; lia).
  rewrite H by lia. reflexivity.
Qed.

Lemma fsum_ext (f g : nat -> float64) (n : nat) :
  (forall k, k < n -> f k = g k) -> fsum f n = fsum g n.
Proof.
  induction n as [|n IH]; intros H; simpl; [reflexivity|].
  rewrite IH by (intros; apply H; lia).
  rewrite H by lia. reflexivity.
Qed.

(** ** Centering of the concrete inputs *)

Lemma init_default : init (Fin 1) (Fin 1) true false = Ok fresh.
Proof. unfold init, fge, flt, feq. Rdecide. reflexivity. Qed.

Lemma X_pm1_centered : centered X_pm1.
Proof.
  unfold centered, X_pm1. cbn.
  unfold np.column_mean, fdiv, of_nat. cbn. Rdecide.
  replace ((0 + 1 + -1) / (1 + 1))%R with 0%R by lra.
  unfold fabs. rewrite Rabs_R0. Rdecide. reflexivity.
Qed.

Lemma X_off_center_mean :
  first_off_center X_off_center (seq 0 (shape1 X_off_center)) =
  Some (0, Fin 2).
Proof.
  unfold X_off_center. cbn.
  unfold np.column_mean, fdiv, of_nat. cbn. Rdecide.
  replace ((0 + 1 + 3) / (1 + 1))%R with 2%R by lra.
  unfold fabs. rewrite Rabs_pos_eq by lra.
  Rdecide. reflexivity.
Qed.

Lemma X_zero_column_centered : centered X_zero_column.
Proof.
  unfold centered, X_zero_column. cbn.
  unfold np.column_mean, fdiv, of_nat. cbn. Rdecide.
  replace ((0 + 1 + -1) / (1 + 1))%R with 0%R by lra.
  replace ((0 + 0 + 0) / (1 + 1))%R with 0%R by lra.
  unfold fabs. rewrite Rabs_R0. Rdecide. reflexivity.
Qed.

Lemma X_with_zero_centered : centered X_with_zero.
Proof.
  unfold centered, X_with_zero. cbn.
  unfold np.column_mean, fdiv, of_nat. cbn. Rdecide.
  replace ((0 + 2 + 0 + -2) / (1 + 1 + 1))%R with 0%R by lra.
  unfold fabs. rewrite Rabs_R0. Rdecide. reflexivity.
Qed.

(** ** The observation counts *)

Lemma count_rows_bounds (f : nat -> bool) (n : nat) :
  (0 <= count_rows f n <= Z.of_nat n)%Z.
Proof.
  unfold count_rows. induction n as [|n IH].
  - simpl. lia.
  - cbn [isum]. destruct (f n); lia.
Qed.

Lemma count_rows_all (f : nat -> bool) (n : nat) :
  (forall k, k < n -> f k = true) -> count_rows f n = Z.of_nat n.
Proof.
  unfold count_rows. induction n as [|n IH]; intros H.
  - reflexivity.
  - cbn [isum]. rewrite IH by (intros; apply H; lia).
    rewrite H by lia. lia.
Qed.

Lemma Y_of_item (X : matrix) (k i : nat) :
  item (Y_of X) k i = if counted (item X k i) then 1%Z else 0%Z.
Proof.
  unfold Y_of, Z_of, np.astype_int, np.ne0, np.nan_to_num, np.map2d, counted.
  cbn [item]. destruct (item X k i) as [| | |r];
    unfold np.nan_to_num1, fne, feq, isnan; pose proof DBL_MAX_pos;
    Rdecide; reflexivity.
Qed.

Lemma R_raw_shape (X : matrix) :
  shape0 (R_raw X) = shape1 X /\ shape1 (R_raw X) = shape1 X.
Proof. split; reflexivity. Qed.

(** What the code counts: rows in which both entries are present and
    non-zero. *)
Lemma R_raw_item (X : matrix) (i j : nat) :
  item (R_raw X) i j =
  count_rows (fun k => counted (item X k i) && counted (item X k j))
             (shape0 X).
Proof.
  unfold R_raw, np.dot_int, count_rows. cbn [item shape1 np.T].
  change (shape0 (Y_of X)) with (shape0 X).
  apply isum_ext. intros k _.
  rewrite !Y_of_item.
  destruct (counted (item X k i)), (counted (item X k j)); reflexivity.
Qed.

Lemma R_raw_bounds (X : matrix) (i j : nat) :
  (0 <= item (R_raw X) i j <= Z.of_nat (shape0 X))%Z.
Proof. rewrite R_raw_item. apply count_rows_bounds. Qed.

(** On data without a zero entry the code's count is the presence count. *)
Lemma R_raw_present_when_nonzero (X : matrix) (i j : nat) :
  (forall k, k < shape0 X -> feq (item X k i) (Fin 0) = false) ->
  (forall k, k < shape0 X -> feq (item X k j) (Fin 0) = false) ->
  item (R_raw X) i j = both_present_count X i j.
Proof.
  intros Hi Hj. rewrite R_raw_item. unfold both_present_count, count_rows.
  apply isum_ext. intros k Hk.
  unfold counted, present, fne. rewrite Hi, Hj by assumption.
  cbn. rewrite !andb_true_r. reflexivity.
Qed.

(** C1: [X_zero_column] is centered and nothing in it is missing, so every
    presence count is 2, the number of rows; yet the count matrix the code
    builds is 2 at (0,0) only and 0 wherever the second feature, observed
    as 0.0, is involved. *)
Theorem C1_R_raw_drops_present_zeros :
  centered X_zero_column /\
  np.isnan_any X_zero_column = false /\
  both_present_count X_zero_column 0 0 = 2%Z /\
  both_present_count X_zero_column 0 1 = 2%Z /\
  both_present_count X_zero_column 1 0 = 2%Z /\
  both_present_count X_zero_column 1 1 = 2%Z /\
  item (R_raw X_zero_column) 0 0 = 2%Z /\
  item (R_raw X_zero_column) 0 1 = 0%Z /\
  item (R_raw X_zero_column) 1 0 = 0%Z /\
  item (R_raw X_zero_column) 1 1 = 0%Z.
Proof.
  split; [exact X_zero_column_centered|].
  split; [reflexivity|].
  rewrite !R_raw_item.
  unfold both_present_count, count_rows, counted, present, fne, X_zero_column.
  cbn. Rdecide. cbn. repeat split; reflexivity.
Qed.

(** ** The imputed parameters *)

(** In the state [fit] has prepared, [__impute_params__] returns these and
    leaves the object as it was. *)
Lemma impute_params_run (X : matrix) (y : vector) (s : HMLasso) :
  self.p s = Some (shape1 X) ->
  self.n s = Some (shape0 X) ->
  size y = shape0 X ->
  impute_params X y s =
  (Ok (S_pair_of X, rho_pair_of X y, R_of X (self.alpha s)), s).
Proof.
  intros Hp Hn Hy. unfold impute_params, bind, get. rewrite Hp, Hn, Hy.
  rewrite !Nat.eqb_refl. reflexivity.
Qed.

Lemma isfinite_Fin (x : float64) :
  isfinite x = true -> exists r, x = Fin r.
Proof. destruct x; try discriminate. eauto. Qed.

Lemma fadd_finite (x y : float64) :
  isfinite x = true -> isfinite y = true -> isfinite (fadd x y) = true.
Proof. destruct x, y; try discriminate; reflexivity. Qed.

Lemma fmul_finite (x y : float64) :
  isfinite x = true -> isfinite y = true -> isfinite (fmul x y) = true.
Proof. destruct x, y; try discriminate; reflexivity. Qed.

Lemma fsum_finite (f : nat -> float64) (n : nat) :
  (forall k, k < n -> isfinite (f k) = true) -> isfinite (fsum f n) = true.
Proof.
  induction n as [|n IH]; intros H; [reflexivity|].
  cbn [fsum]. apply fadd_finite; [apply IH; intros; apply H; lia|apply H; lia].
Qed.

Lemma fdiv_count_finite (x : float64) (c : Z) :
  isfinite x = true -> c <> 0%Z -> isfinite (fdiv x (of_Z c)) = true.
Proof.
  intros Hx Hc. destruct (isfinite_Fin _ Hx) as [r ->].
  unfold fdiv, of_Z.
  replace (Req_b (IZR c) 0) with false; [reflexivity|].
  symmetry. apply Req_b_false. intros H. apply Hc. now apply eq_IZR.
Qed.

Lemma Z_of_finite (X : matrix) (k i : nat) :
  isfinite (item (Z_of X) k i) = true.
Proof.
  unfold Z_of, np.nan_to_num, np.map2d. cbn [item].
  destruct (item X k i); reflexivity.
Qed.

(** On a present, finite entry the zero-imputation changes nothing. *)
Lemma Z_of_finite_entry (X : matrix) (k i : nat) (r : R) :
  item X k i = Fin r -> item (Z_of X) k i = Fin r.
Proof.
  intros H. unfold Z_of, np.nan_to_num, np.map2d. cbn [item].
  rewrite H. reflexivity.
Qed.

Lemma S_pair_of_item (X : matrix) (i j : nat) :
  item (S_pair_of X) i j =
  if Z.eqb (item (R_raw X) i j) 0 then Fin 0
  else fdiv (fsum (fun k => fmul (item (Z_of X) k i) (item (Z_of X) k j))
                  (shape0 X))
            (of_Z (item (R_raw X) i j)).
Proof. reflexivity. Qed.

Lemma rho_pair_of_item (X : matrix) (y : vector) (i : nat) :
  item1 (rho_pair_of X y) i =
  if Z.eqb (item (R_raw X) i i) 0 then Fin 0
  else fdiv (fsum (fun k => fmul (item (Z_of X) k i) (item1 y k)) (shape0 X))
            (of_Z (item (R_raw X) i i)).
Proof. reflexivity. Qed.

Lemma fsum_nan (f : nat -> float64) (n k0 : nat) :
  k0 < n -> f k0 = NaN -> fsum f n = NaN.
Proof.
  induction n as [|n IH]; intros Hk H0; [lia|].
  cbn [fsum]. destruct (Nat.eq_dec k0 n) as [->|Hne].
  - rewrite H0. destruct (fsum f n); reflexivity.
  - rewrite IH by (assumption || lia). reflexivity.
Qed.

Lemma fmul_nan_r (x : float64) : fmul x NaN = NaN.
Proof. destruct x; reflexivity. Qed.

(** A missing label reaches every entry of [rho_pair] that is divided. *)
Lemma rho_pair_of_nan (X : matrix) (y : vector) (k0 i : nat) :
  shape0 X = size y ->
  k0 < size y ->
  item1 y k0 = NaN ->
  item (R_raw X) i i <> 0%Z ->
  item1 (rho_pair_of X y) i = NaN.
Proof.
  intros Hs Hk H0 Hc. rewrite rho_pair_of_item.
  apply Z.eqb_neq in Hc. rewrite Hc.
  rewrite (@fsum_nan _ (shape0 X) k0); [reflexivity|lia|].
  rewrite H0. apply fmul_nan_r.
Qed.

(** C5, as the code has it: in the state [fit] prepares,
    [__impute_params__] returns, and every division in it is guarded.  A
    zero count on the diagonal gives the entry 0.0 of [rho_pair], a zero
    count at (i,j) the entry 0.0 of [S_pair], whatever [X] and [y] hold.
    Every other entry is the dot product divided by its count, which is
    then at least 1, so the division is by no zero and turns no finite dot
    product into NaN or an infinity.  A NaN in the labels is not kept out:
    it makes [rho_pair] NaN at every feature whose count is not zero. *)
Theorem C5_divisions_guarded (X : matrix) (y : vector) (s : HMLasso) :
  self.p s = Some (shape1 X) ->
  self.n s = Some (shape0 X) ->
  size y = shape0 X ->
  exists S_pair rho_pair R,
    impute_params X y s = (Ok (S_pair, rho_pair, R), s) /\
    (forall i, item (R_raw X) i i = 0%Z -> item1 rho_pair i = Fin 0) /\
    (forall i j, item (R_raw X) i j = 0%Z -> item S_pair i j = Fin 0) /\
    (forall i, item (R_raw X) i i <> 0%Z ->
               (1 <= item (R_raw X) i i)%Z /\
               item1 rho_pair i =
               fdiv (item1 (np.dot_mv (np.T (Z_of X)) y) i)
                    (of_Z (item (R_raw X) i i)) /\
               (isfinite (item1 (np.dot_mv (np.T (Z_of X)) y) i) = true ->
                isfinite (item1 rho_pair i) = true)) /\
    (forall i j, item (R_raw X) i j <> 0%Z ->
                 (1 <= item (R_raw X) i j)%Z /\
                 item S_pair i j =
                 fdiv (item (np.dot_mm (np.T (Z_of X)) (Z_of X)) i j)
                      (of_Z (item (R_raw X) i j)) /\
                 (isfinite (item (np.dot_mm (np.T (Z_of X)) (Z_of X)) i j)
                  = true ->
                  isfinite (item S_pair i j) = true)) /\
    (forall k, k < shape0 X -> item1 y k = NaN ->
               forall i, item (R_raw X) i i <> 0%Z -> item1 rho_pair i = NaN).
Proof.
  intros Hp Hn Hy.
  exists (S_pair_of X), (rho_pair_of X y), (R_of X (self.alpha s)).
  split; [now apply impute_params_run|].
  split; [|split; [|split; [|split]]].
  - intros i H. rewrite rho_pair_of_item, H. reflexivity.
  - intros i j H. rewrite S_pair_of_item, H. reflexivity.
  - intros i H. pose proof (R_raw_bounds X i i) as Hb.
    split; [lia|]. rewrite rho_pair_of_item.
    pose proof H as H'. apply Z.eqb_neq in H'. rewrite H'.
    split; [reflexivity|].
    intros Hfin. now apply fdiv_count_finite.
  - intros i j H. pose proof (R_raw_bounds X i j) as Hb.
    split; [lia|]. rewrite S_pair_of_item.
    pose proof H as H'. apply Z.eqb_neq in H'. rewrite H'.
    split; [reflexivity|].
    intros Hfin. now apply fdiv_count_finite.
  - intros k Hk Hnan i Hi.
    apply (@rho_pair_of_nan X y k i); [lia|lia|exact Hnan|exact Hi].
Qed.

Lemma C5_divisions_guarded_witness :
  exists S_pair rho_pair R,
    impute_params X_zero_column y_12
                  (prepared (Fin 1) (Fin 1) false X_zero_column) =
    (Ok (S_pair, rho_pair, R),
     prepared (Fin 1) (Fin 1) false X_zero_column) /\
    (forall i, item (R_raw X_zero_column) i i = 0%Z ->
               item1 rho_pair i = Fin 0) /\
    (forall i j, item (R_raw X_zero_column) i j = 0%Z ->
                 item S_pair i j = Fin 0) /\
    (forall i, item (R_raw X_zero_column) i i <> 0%Z ->
               (1 <= item (R_raw X_zero_column) i i)%Z /\
               item1 rho_pair i =
               fdiv (item1 (np.dot_mv (np.T (Z_of X_zero_column)) y_12) i)
                    (of_Z (item (R_raw X_zero_column) i i)) /\
               (isfinite (item1 (np.dot_mv (np.T (Z_of X_zero_column)) y_12) i)
                = true ->
                isfinite (item1 rho_pair i) = true)) /\
    (forall i j, item (R_raw X_zero_column) i j <> 0%Z ->
                 (1 <= item (R_raw X_zero_column) i j)%Z /\
                 item S_pair i j =
                 fdiv (item (np.dot_mm (np.T (Z_of X_zero_column))
                                      (Z_of X_zero_column)) i j)
                      (of_Z (item (R_raw X_zero_column) i j)) /\
                 (isfinite (item (np.dot_mm (np.T (Z_of X_zero_column))
                                            (Z_of X_zero_column)) i j)
                  = true ->
                  isfinite (item S_pair i j) = true)) /\
    (forall k, k < shape0 X_zero_column -> item1 y_12 k = NaN ->
               forall i, item (R_raw X_zero_column) i i <> 0%Z ->
                         item1 rho_pair i = NaN).
Proof.
  apply (@C5_divisions_guarded X_zero_column y_12
           (prepared (Fin 1) (Fin 1) false X_zero_column));
    reflexivity.
Defined.

(** The claim as worded fails on an input [fit] accepts: [X_pm1] is
    centered and [y_nan5] has its length, the count of the one feature is
    2, and the entry of [rho_pair] is NaN. *)
Lemma C5_counterexample :
  shape0 X_pm1 = size y_nan5 /\
  centered X_pm1 /\
  impute_params X_pm1 y_nan5 (prepared (Fin 1) (Fin 1) false X_pm1) =
  (Ok (S_pair_of X_pm1, rho_pair_of X_pm1 y_nan5, R_of X_pm1 (Fin 1)),
   prepared (Fin 1) (Fin 1) false X_pm1) /\
  item (R_raw X_pm1) 0 0 = 2%Z /\
  item1 (rho_pair_of X_pm1 y_nan5) 0 = NaN.
Proof.
  split; [reflexivity|]. split; [exact X_pm1_centered|].
  split; [apply impute_params_run; reflexivity|].
  assert (Hc : item (R_raw X_pm1) 0 0 = 2%Z).
  { rewrite R_raw_item. unfold count_rows, counted, fne, feq, X_pm1. cbn.
    Rdecide. reflexivity. }
  split; [exact Hc|].
  apply (@rho_pair_of_nan X_pm1 y_nan5 0 0);
    [reflexivity|cbn; lia|reflexivity|rewrite Hc; discriminate].
Qed.

(** ** Complete data *)

Lemma fsum_Fin (f : nat -> float64) (g : nat -> R) (n : nat) :
  (forall k, k < n -> f k = Fin (g k)) ->
  exists t, fsum f n = Fin t.
Proof.
  intros H. apply isfinite_Fin, fsum_finite.
  intros k Hk. rewrite H by assumption. reflexivity.
Qed.

(** Where every entry of [X] is a non-zero real number, and there is at
    least one row, the imputer does reduce to the complete-data
    estimates. *)
Lemma impute_complete_nonzero (X : matrix) (y : vector) :
  0 < shape0 X ->
  (forall k i, k < shape0 X ->
               exists r, item X k i = Fin r /\ r <> 0%R) ->
  (forall k, k < shape0 X -> isfinite (item1 y k) = true) ->
  forall i j,
    same_number (item (S_pair_of X) i j) (item (complete_covariance X) i j) /\
    same_number (item1 (rho_pair_of X y) i)
                (item1 (complete_cross_covariance X y) i).
Proof.
  intros Hn HX Hy i j.
  assert (Hcount : forall a b, item (R_raw X) a b = Z.of_nat (shape0 X)).
  { intros a b. rewrite R_raw_item. apply count_rows_all. intros k Hk.
    destruct (HX k a Hk) as [ra [Ha Hra]], (HX k b Hk) as [rb [Hb Hrb]].
    unfold counted, fne, feq. rewrite Ha, Hb. cbn.
    apply Req_b_false in Hra, Hrb. rewrite Hra, Hrb. reflexivity. }
  assert (HZ : forall k a, k < shape0 X -> item (Z_of X) k a = item X k a).
  { intros k a Hk. destruct (HX k a Hk) as [r [Hr _]].
    rewrite Hr. now apply Z_of_finite_entry. }
  assert (Hnz : INR (shape0 X) <> 0%R) by (apply not_0_INR; lia).
  assert (Hz : Z.eqb (Z.of_nat (shape0 X)) 0 = false)
    by (apply Z.eqb_neq; lia).
  split.
  - rewrite S_pair_of_item, Hcount, Hz. cbn [complete_covariance item].
    rewrite (fsum_ext (fun k => fmul (item (Z_of X) k i) (item (Z_of X) k j))
                      (fun k => fmul (item X k i) (item X k j)))
      by (intros k Hk; rewrite !HZ by assumption; reflexivity).
    assert (Hs : isfinite (fsum (fun k => fmul (item X k i) (item X k j))
                                (shape0 X)) = true).
    { apply fsum_finite. intros k Hk.
      destruct (HX k i Hk) as [ra [-> _]], (HX k j Hk) as [rb [-> _]].
      reflexivity. }
    destruct (isfinite_Fin _ Hs) as [t ->].
    unfold fdiv, fmul, of_Z, of_nat. rewrite <- INR_IZR_INZ.
    apply Req_b_false in Hnz. rewrite Hnz. cbn. field.
    now apply Req_b_false.
  - rewrite rho_pair_of_item, Hcount, Hz. cbn [complete_cross_covariance item1].
    rewrite (fsum_ext (fun k => fmul (item (Z_of X) k i) (item1 y k))
                      (fun k => fmul (item X k i) (item1 y k)))
      by (intros k Hk; rewrite !HZ by assumption; reflexivity).
    assert (Hs : isfinite (fsum (fun k => fmul (item X k i) (item1 y k))
                                (shape0 X)) = true).
    { apply fsum_finite. intros k Hk.
      destruct (HX k i Hk) as [ra [-> _]].
      destruct (isfinite_Fin _ (Hy k Hk)) as [ry ->]. reflexivity. }
    destruct (isfinite_Fin _ Hs) as [t ->].
    unfold fdiv, fmul, of_Z, of_nat. rewrite <- INR_IZR_INZ.
    apply Req_b_false in Hnz. rewrite Hnz. cbn. field.
    now apply Req_b_false.
Qed.

(** C4: [X_with_zero] is centered and has no missing entry; the
    complete-data estimates at [X_with_zero], [y_with_zero] are 8/3 and
    4/3, while the imputer, which counts two observations instead of
    three, returns 4 and 2. *)
Theorem C4_complete_data_with_zero_entry :
  centered X_with_zero /\
  np.isnan_any X_with_zero = false /\
  item (complete_covariance X_with_zero) 0 0 = Fin (8 / 3) /\
  item1 (complete_cross_covariance X_with_zero y_with_zero) 0 = Fin (4 / 3) /\
  impute_params X_with_zero y_with_zero
                (prepared (Fin 1) (Fin 1) false X_with_zero) =
  (Ok (S_pair_of X_with_zero, rho_pair_of X_with_zero y_with_zero,
       R_of X_with_zero (Fin 1)),
   prepared (Fin 1) (Fin 1) false X_with_zero) /\
  item (R_raw X_with_zero) 0 0 = 2%Z /\
  item (S_pair_of X_with_zero) 0 0 = Fin 4 /\
  item1 (rho_pair_of X_with_zero y_with_zero) 0 = Fin 2.
Proof.
  assert (Hc : item (R_raw X_with_zero) 0 0 = 2%Z).
  { rewrite R_raw_item. unfold count_rows, counted, fne, feq, X_with_zero.
    cbn. Rdecide. reflexivity. }
  split; [exact X_with_zero_centered|].
  repeat split; try reflexivity.
  - unfold complete_covariance, X_with_zero, fdiv, of_nat. cbn. Rdecide.
    cbn. f_equal. lra.
  - unfold complete_cross_covariance, X_with_zero, y_with_zero, fdiv, of_nat.
    cbn. Rdecide. cbn. f_equal. lra.
  - exact Hc.
  - rewrite S_pair_of_item, Hc. unfold Z_of, X_with_zero, fdiv, of_Z.
    cbn. Rdecide. f_equal. lra.
  - rewrite rho_pair_of_item, Hc.
    unfold Z_of, X_with_zero, y_with_zero, fdiv, of_Z.
    cbn. Rdecide. f_equal. lra.
Qed.

(** ** The confidence weights *)

Lemma in_unit_interval_Fin (r : R) :
  (0 <= r <= 1)%R -> in_unit_interval (Fin r) = true.
Proof.
  intros [H0 H1]. cbn. apply andb_true_intro.
  split; now apply Rle_b_true.
Qed.

Lemma in_unit_interval_inv (x : float64) :
  in_unit_interval x = true -> exists r, x = Fin r /\ (0 <= r <= 1)%R.
Proof.
  destruct x as [| | |r]; try discriminate. cbn. intros H.
  apply andb_prop in H. destruct H as [H0 H1].
  exists r. split; [reflexivity|].
  split; now apply Rle_b_true.
Qed.

Lemma Rpower_unit_interval (a b : R) :
  (0 < a <= 1)%R -> (0 < b)%R -> (0 <= Rpower a b <= 1)%R.
Proof.
  intros [Ha0 Ha1] Hb. unfold Rpower. split.
  - left. apply exp_pos.
  - destruct Ha1 as [Ha1 | ->].
    + left. rewrite <- exp_0. apply exp_increasing.
      assert (ln a < 0)%R by (rewrite <- ln_1; now apply ln_increasing).
      nra.
    + rewrite ln_1, Rmult_0_r, exp_0. right. reflexivity.
Qed.

(** [pow] maps the unit interval into itself for every exponent that passes
    the constructor's [alpha >= 0]. *)
Lemma pow_unit_interval (x alpha : float64) :
  in_unit_interval x = true ->
  fge alpha (Fin 0) = true ->
  in_unit_interval (pow x alpha) = true.
Proof.
  intros Hx Ha. destruct (in_unit_interval_inv _ Hx) as [a [-> [Ha0 Ha1]]].
  destruct alpha as [| | |b]; try discriminate.
  - (* alpha = +inf *)
    unfold pow. rewrite (Rabs_pos_eq a Ha0).
    destruct (Rlt_dec a 1) as [Hlt|Hge].
    + apply Rlt_b_true in Hlt. rewrite Hlt.
      apply in_unit_interval_Fin. lra.
    + assert (a = 1%R) as -> by lra.
      Rdecide. apply in_unit_interval_Fin. lra.
  - (* a finite exponent *)
    assert (Hb : (0 <= b)%R).
    { unfold fge, flt, feq in Ha. apply orb_prop in Ha.
      destruct Ha as [H|H]; [apply Rlt_b_true in H|apply Req_b_true in H]; lra. }
    unfold pow.
    destruct (Req_dec_T b 0) as [Hb0|Hb0].
    + apply Req_b_true in Hb0. rewrite Hb0. apply in_unit_interval_Fin. lra.
    + apply Req_b_false in Hb0. rewrite Hb0. apply Req_b_false in Hb0.
      destruct (Rlt_dec 0 a) as [Hpos|Hnpos].
      * pose proof Hpos as Hpos'. apply Rlt_b_true in Hpos'. rewrite Hpos'.
        apply in_unit_interval_Fin. apply Rpower_unit_interval; lra.
      * assert (a = 0%R) as -> by lra.
        Rdecide. apply in_unit_interval_Fin. lra.
Qed.

Lemma R_normalized_item (X : matrix) (i j : nat) :
  item (R_normalized X) i j =
  fdiv (of_Z (item (R_raw X) i j)) (of_nat (shape0 X)).
Proof. reflexivity. Qed.

Lemma R_normalized_unit_interval (X : matrix) (i j : nat) :
  0 < shape0 X -> in_unit_interval (item (R_normalized X) i j) = true.
Proof.
  intros Hn. rewrite R_normalized_item.
  pose proof (R_raw_bounds X i j) as [Hlo Hhi].
  assert (Hpos : (0 < INR (shape0 X))%R) by (apply lt_0_INR; lia).
  unfold fdiv, of_Z, of_nat.
  replace (Req_b (INR (shape0 X)) 0) with false
    by (symmetry; apply Req_b_false; lra).
  apply in_unit_interval_Fin.
  apply IZR_le in Hlo, Hhi. rewrite <- INR_IZR_INZ in Hhi.
  split.
  - apply Rmult_le_pos; [exact Hlo|]. left. now apply Rinv_0_lt_compat.
  - apply (Rmult_le_reg_r (INR (shape0 X))); [exact Hpos|].
    unfold Rdiv. rewrite Rmult_assoc, Rinv_l by lra. lra.
Qed.

(** C6, with at least one observation: in the state [fit] prepares on a
    matrix with one row or more and for an exponent [alpha >= 0],
    [__impute_params__] returns, every entry of [R / n] lies in [0,1], and
    so does every entry of the weights it returns. *)
Theorem C6_weights_in_unit_interval (X : matrix) (y : vector) (s : HMLasso) :
  self.p s = Some (shape1 X) ->
  self.n s = Some (shape0 X) ->
  size y = shape0 X ->
  0 < shape0 X ->
  fge (self.alpha s) (Fin 0) = true ->
  exists S_pair rho_pair R,
    impute_params X y s = (Ok (S_pair, rho_pair, R), s) /\
    forall i j,
      in_unit_interval (item (R_normalized X) i j) = true /\
      item R i j = pow (item (R_normalized X) i j) (self.alpha s) /\
      in_unit_interval (item R i j) = true.
Proof.
  intros Hp Hn Hy Hrows Halpha.
  exists (S_pair_of X), (rho_pair_of X y), (R_of X (self.alpha s)).
  split; [now apply impute_params_run|].
  intros i j. split; [|split].
  - now apply R_normalized_unit_interval.
  - reflexivity.
  - unfold R_of, np.power, np.map2d. cbn [item].
    apply pow_unit_interval; [now apply R_normalized_unit_interval|exact Halpha].
Qed.

Lemma C6_weights_in_unit_interval_witness :
  exists S_pair rho_pair R,
    impute_params X_zero_column y_12
                  (prepared (Fin 1) (Fin (1 / 2)) false X_zero_column) =
    (Ok (S_pair, rho_pair, R),
     prepared (Fin 1) (Fin (1 / 2)) false X_zero_column) /\
    forall i j,
      in_unit_interval (item (R_normalized X_zero_column) i j) = true /\
      item R i j = pow (item (R_normalized X_zero_column) i j) (Fin (1 / 2)) /\
      in_unit_interval (item R i j) = true.
Proof.
  apply (@C6_weights_in_unit_interval X_zero_column y_12
           (prepared (Fin 1) (Fin (1 / 2)) false X_zero_column)).
  - reflexivity.
  - reflexivity.
  - reflexivity.
  - cbn. lia.
  - cbn. unfold fge, flt, feq. Rdecide. reflexivity.
Defined.

(** C6 as worded fails without observations: [X_no_rows], [y_no_rows] pass
    the shape assertion and the centering check, [__impute_params__]
    returns, and the normalised count and the weight at (0,0) are both NaN,
    outside [0,1]. *)
Lemma C6_no_rows_counterexample :
  Nat.eqb (shape0 X_no_rows) (size y_no_rows) = true /\
  verify_centering X_no_rows (prepared (Fin 1) (Fin 1) false X_no_rows) =
  (Ok tt, prepared (Fin 1) (Fin 1) false X_no_rows) /\
  fge (self.alpha (prepared (Fin 1) (Fin 1) false X_no_rows)) (Fin 0) = true /\
  impute_params X_no_rows y_no_rows
                (prepared (Fin 1) (Fin 1) false X_no_rows) =
  (Ok (S_pair_of X_no_rows, rho_pair_of X_no_rows y_no_rows,
       R_of X_no_rows (Fin 1)),
   prepared (Fin 1) (Fin 1) false X_no_rows) /\
  item (R_normalized X_no_rows) 0 0 = NaN /\
  in_unit_interval (item (R_normalized X_no_rows) 0 0) = false /\
  item (R_of X_no_rows (Fin 1)) 0 0 = NaN /\
  in_unit_interval (item (R_of X_no_rows (Fin 1)) 0 0) = false.
Proof.
  assert (Hn : item (R_normalized X_no_rows) 0 0 = NaN).
  { rewrite R_normalized_item. unfold fdiv, of_Z, of_nat, sign. cbn.
    Rdecide. reflexivity. }
  assert (Hw : item (R_of X_no_rows (Fin 1)) 0 0 = NaN).
  { unfold R_of, np.power, np.map2d. cbn [item]. rewrite Hn.
    unfold pow. Rdecide. reflexivity. }
  split; [reflexivity|]. split.
  - unfold verify_centering, bind, get, ret. cbn.
    unfold np.column_mean, fdiv, fgt, flt, fabs, of_nat, sign. cbn.
    Rdecide. reflexivity.
  - split; [unfold fge, flt, feq; cbn; Rdecide; reflexivity|].
    split; [reflexivity|].
    rewrite Hn, Hw. repeat split.
Qed.

(** ** Running [fit] *)

Section FitRuns.

Variable ERRORS_HANDLING : string.
Variable eig : matrix -> result (list complex).
Variable solve_sdp : nat -> matrix -> matrix -> bool -> result (solved matrix).
Variable solve_qp_l1 :
  nat -> sigma_value -> vector -> float64 -> bool -> result (solved vector).

Let fit' := fit ERRORS_HANDLING eig solve_sdp solve_qp_l1.

Lemma fit_shape_mismatch (X : matrix) (y : labels) (s : HMLasso) :
  shape0 X <> labels_shape0 y ->
  fit' X y s =
  (Raise (AssertionError "Features and labels shapes are not compatibles."),
   s).
Proof.
  intros H. apply Nat.eqb_neq in H.
  destruct y; cbn [labels_shape0] in H; unfold fit', fit; mrun;
    rewrite H; reflexivity.
Qed.

Lemma fit_labels_not_vector (X m : matrix) (s : HMLasso) :
  shape0 X = shape0 m ->
  fit' X (Labels2 m) s = (Raise (AssertionError "Labels are not a vector."), s).
Proof.
  intros H. unfold fit', fit. mrun.
  rewrite H, Nat.eqb_refl. reflexivity.
Qed.

Ltac fit_checks Hs :=
  unfold fit', fit, verify_centering, solve_first_problem,
    solve_second_problem, first_solve, second_solve in *;
  mrun; rewrite <- Hs, Nat.eqb_refl; mrun; rewrite Nat.min_id.

Lemma fit_not_centered (X : matrix) (y : vector) (s : HMLasso)
      (col : nat) (current_mean : float64) :
  shape0 X = size y ->
  first_off_center X (seq 0 (shape1 X)) = Some (col, current_mean) ->
  fit' X (Labels1 y) s =
  (Raise (Exception_not_centered col current_mean), after_checks X s).
Proof.
  intros Hs Hc. destruct s. fit_checks Hs. rewrite Hc. reflexivity.
Qed.

Ltac fit_impute Hs Hc :=
  fit_checks Hs; rewrite Hc, Nat.ltb_irrefl; mrun;
  rewrite impute_params_run; [|reflexivity|reflexivity|congruence];
  mrun.

Lemma fit_first_solve_raises (X : matrix) (y : vector) (s : HMLasso)
      (e : exn) :
  shape0 X = size y ->
  centered X ->
  first_solve solve_sdp X s = Raise e ->
  fit' X (Labels1 y) s = (Raise e, after_impute X y s).
Proof.
  intros Hs Hc H1. destruct s. unfold first_solve, second_solve in *. mrun_in H1. fit_impute Hs Hc.
  rewrite H1. reflexivity.
Qed.

Lemma fit_first_solve_no_value (X : matrix) (y : vector) (s : HMLasso)
      (st : status) :
  shape0 X = size y ->
  centered X ->
  first_solve solve_sdp X s = Ok (mkSolved st None) ->
  fit' X (Labels1 y) s =
  (Raise (LinAlgError "0-dimensional array given. Array must be at least two-dimensional"),
   after_first_solve X y None s).
Proof.
  intros Hs Hc H1. destruct s. unfold first_solve, second_solve in *. mrun_in H1. fit_impute Hs Hc.
  rewrite H1. reflexivity.
Qed.

Lemma fit_eig_raises (X : matrix) (y : vector) (s : HMLasso)
      (st : status) (Sigma : matrix) (e : exn) :
  shape0 X = size y ->
  centered X ->
  first_solve solve_sdp X s = Ok (mkSolved st (Some Sigma)) ->
  eig Sigma = Raise e ->
  fit' X (Labels1 y) s = (Raise e, after_first_solve X y (Some Sigma) s).
Proof.
  intros Hs Hc H1 H2. destruct s. unfold first_solve, second_solve in *. mrun_in H1. fit_impute Hs Hc.
  rewrite H1. mrun. rewrite H2. reflexivity.
Qed.

Lemma fit_min_raises (X : matrix) (y : vector) (s : HMLasso)
      (st : status) (Sigma : matrix) (evs : list complex) (e : exn) :
  shape0 X = size y ->
  centered X ->
  first_solve solve_sdp X s = Ok (mkSolved st (Some Sigma)) ->
  eig Sigma = Ok evs ->
  py_min evs = Raise e ->
  fit' X (Labels1 y) s = (Raise e, after_first_solve X y (Some Sigma) s).
Proof.
  intros Hs Hc H1 H2 H3. destruct s. unfold first_solve, second_solve in *. mrun_in H1. fit_impute Hs Hc.
  rewrite H1. mrun. rewrite H2, H3. reflexivity.
Qed.

Lemma fit_second_solve_raises (X : matrix) (y : vector) (s : HMLasso)
      (st : status) (Sigma : matrix) (evs : list complex) (m : complex)
      (e : exn) :
  shape0 X = size y ->
  centered X ->
  first_solve solve_sdp X s = Ok (mkSolved st (Some Sigma)) ->
  eig Sigma = Ok evs ->
  py_min evs = Ok m ->
  second_solve ERRORS_HANDLING solve_qp_l1 X y Sigma m s = Raise e ->
  fit' X (Labels1 y) s = (Raise e, after_repair ERRORS_HANDLING X y Sigma m s).
Proof.
  intros Hs Hc H1 H2 H3 H4. destruct s. unfold first_solve, second_solve in *. mrun_in H1. mrun_in H4.
  fit_impute Hs Hc. rewrite H1. mrun. rewrite H2, H3. mrun.
  unfold repaired in H4.
  destruct (clt m (mkC (Fin 0) (Fin 0)));
    destruct (String.eqb ERRORS_HANDLING "ignore");
    mrun; rewrite H4; reflexivity.
Qed.

Lemma fit_completes (X : matrix) (y : vector) (s : HMLasso)
      (st1 st2 : status) (Sigma : matrix) (evs : list complex) (m : complex)
      (beta : option vector) :
  shape0 X = size y ->
  centered X ->
  first_solve solve_sdp X s = Ok (mkSolved st1 (Some Sigma)) ->
  eig Sigma = Ok evs ->
  py_min evs = Ok m ->
  second_solve ERRORS_HANDLING solve_qp_l1 X y Sigma m s = Ok (mkSolved st2 beta) ->
  fit' X (Labels1 y) s = (Ok tt, fitted ERRORS_HANDLING X y Sigma m beta s).
Proof.
  intros Hs Hc H1 H2 H3 H4. destruct s. unfold first_solve, second_solve in *. mrun_in H1. mrun_in H4.
  fit_impute Hs Hc. rewrite H1. mrun. rewrite H2, H3. mrun.
  unfold repaired in H4.
  destruct (clt m (mkC (Fin 0) (Fin 0)));
    destruct (String.eqb ERRORS_HANDLING "ignore");
    mrun; rewrite H4; reflexivity.
Qed.

Lemma fit_past_checks (X : matrix) (y : vector) (s : HMLasso) :
  shape0 X = size y ->
  centered X ->
  fit_end ERRORS_HANDLING eig solve_sdp solve_qp_l1 X y s (fit' X (Labels1 y) s).
Proof.
  intros Hs Hc. unfold fit'.
  destruct (first_solve solve_sdp X s) as [[st1 [Sigma|]]|e] eqn:H1.
  - destruct (eig Sigma) as [evs|e] eqn:H2.
    + destruct (py_min evs) as [m|e] eqn:H3.
      * destruct (second_solve ERRORS_HANDLING solve_qp_l1 X y Sigma m s)
          as [[st2 beta]|e] eqn:H4.
        -- erewrite fit_completes by eassumption.
           eapply end_fitted; eassumption.
        -- erewrite fit_second_solve_raises by eassumption.
           eapply end_second_solve; eassumption.
      * erewrite fit_min_raises by eassumption.
        eapply end_eig; [eassumption|]. right. eauto.
    + erewrite fit_eig_raises by eassumption.
      eapply end_eig; [eassumption|]. now left.
  - erewrite fit_first_solve_no_value by eassumption.
    eapply end_no_value; eassumption.
  - erewrite fit_first_solve_raises by eassumption.
    now apply end_first_solve.
Qed.

(** Once the checks are passed the imputed parameters are stored, however
    the call ends. *)
Lemma fit_stores_params (X : matrix) (y : vector) (s : HMLasso) :
  shape0 X = size y ->
  centered X ->
  let s' := snd (fit' X (Labels1 y) s) in
  self.n s' = Some (shape0 X) /\
  self.p s' = Some (shape1 X) /\
  self.S_pair s' = Some (S_pair_of X) /\
  self.rho_pair s' = Some (rho_pair_of X y) /\
  self.R s' = Some (R_of X (self.alpha s)).
Proof.
  intros Hs Hc. destruct (@fit_past_checks X y s Hs Hc); cbn; repeat split.
Qed.

(** The fitted flag after a call: set by a call that returns, left as it
    was by a call that raises. *)
Lemma fit_isFitted (X : matrix) (y : labels) (s : HMLasso) :
  self.isFitted (snd (fit' X y s)) =
  if is_ok (fst (fit' X y s)) then true else self.isFitted s.
Proof.
  destruct y as [y|m].
  - destruct (Nat.eq_dec (shape0 X) (size y)) as [Hs|Hs].
    + destruct (first_off_center X (seq 0 (shape1 X))) as [[col mean]|] eqn:Hc.
      * rewrite (@fit_not_centered X y s col mean Hs Hc). reflexivity.
      * destruct (@fit_past_checks X y s Hs Hc); reflexivity.
    + rewrite fit_shape_mismatch by exact Hs. reflexivity.
  - destruct (Nat.eq_dec (shape0 X) (shape0 m)) as [Hs|Hs].
    + rewrite fit_labels_not_vector by exact Hs. reflexivity.
    + rewrite fit_shape_mismatch by exact Hs. reflexivity.
Qed.

End FitRuns.

(** ** Prediction *)

Lemma fsum_rsum (f : nat -> float64) (g : nat -> R) (n : nat) :
  (forall k, k < n -> f k = Fin (g k)) -> fsum f n = Fin (rsum g n).
Proof.
  induction n as [|n IH]; intros H; [reflexivity|].
  cbn [fsum rsum]. rewrite IH by (intros; apply H; lia).
  rewrite H by lia. reflexivity.
Qed.

(** C7, as the code has it: on an object marked fitted and a NaN-free [X]
    with [p] columns, [predict] never changes the object.  When
    [beta_opt] is a vector of [p] entries it returns [np.dot(X, beta_opt)]
    as it is: one entry per row of [X], and on a row where the entries of
    [X] and of [beta_opt] are finite numbers whose products sum, in
    absolute value, to at most half the largest double, that entry is the
    sum over [i] of [X[k,i] * beta_opt[i]].  An object marked fitted can
    hold no coefficient vector: [predict] then raises TypeError on every
    [X] that has an element, and hands back an empty array on an [X] that
    has none. *)
Theorem C7_predict_is_matrix_vector_product (X : matrix) (s : HMLasso) :
  self.isFitted s = true ->
  self.p s = Some (shape1 X) ->
  np.isnan_any X = false ->
  snd (predict X s) = s /\
  (forall beta,
      self.beta_opt s = Some beta ->
      size beta = shape1 X ->
      predict X s = (Ok (product (np.dot_mv X beta)), s) /\
      size (np.dot_mv X beta) = shape0 X /\
      forall k,
        k < shape0 X ->
        (forall i, i < shape1 X ->
                   isfinite (item X k i) = true /\
                   isfinite (item1 beta i) = true) ->
        (rsum (fun i => Rabs (val (item X k i) * val (item1 beta i)))
              (shape1 X) <= DBL_MAX / 2)%R ->
        item1 (np.dot_mv X beta) k =
        Fin (rsum (fun i => val (item X k i) * val (item1 beta i))
                  (shape1 X))%R) /\
  (self.beta_opt s = None ->
   (shape0 X <> 0 -> shape1 X <> 0 ->
    predict X s =
    (Raise (TypeError "unsupported operand type(s) for *: 'float' and 'NoneType'"),
     s)) /\
   (shape0 X = 0 \/ shape1 X = 0 ->
    predict X s = (Ok (no_elements (shape0 X) (shape1 X)), s))).
Proof.
  intros Hf Hp Hnan. split; [|split].
  - unfold predict. munfold. rewrite Hf, Hp, Hnan, Nat.eqb_refl.
    destruct (self.beta_opt s) as [beta|].
    + destruct (Nat.eqb (shape1 X) (size beta)); reflexivity.
    + destruct (Nat.eqb (shape0 X) 0 || Nat.eqb (shape1 X) 0); reflexivity.
  - intros beta Hb Hsize. split; [|split].
    + unfold predict. munfold. rewrite Hf, Hp, Hnan, Hb, Hsize.
      rewrite !Nat.eqb_refl. reflexivity.
    + reflexivity.
    + intros k Hk Hfin _. unfold np.dot_mv. cbn [item1].
      apply fsum_rsum. intros i Hi.
      destruct (Hfin i Hi) as [Hx Hbeta].
      destruct (isfinite_Fin _ Hx) as [x ->].
      destruct (isfinite_Fin _ Hbeta) as [b ->]. reflexivity.
  - intros Hb. split.
    + intros Hn Hq. unfold predict. munfold.
      rewrite Hf, Hp, Hnan, Hb, Nat.eqb_refl.
      apply Nat.eqb_neq in Hn. apply Nat.eqb_neq in Hq.
      rewrite Hn, Hq. reflexivity.
    + intros Hempty. unfold predict. munfold.
      rewrite Hf, Hp, Hnan, Hb, Nat.eqb_refl.
      replace (Nat.eqb (shape0 X) 0 || Nat.eqb (shape1 X) 0) with true;
        [reflexivity|].
      symmetry. apply orb_true_iff.
      destruct Hempty as [H|H]; [left|right]; now apply Nat.eqb_eq.
Qed.

(** [predict] never changes the object, whatever it answers. *)
Lemma predict_pure (X : matrix) (s : HMLasso) : snd (predict X s) = s.
Proof.
  unfold predict. munfold.
  destruct (self.isFitted s); [|reflexivity].
  destruct (self.p s) as [p|]; [|reflexivity].
  destruct (Nat.eqb (shape1 X) p); [|reflexivity].
  destruct (np.isnan_any X); [reflexivity|].
  destruct (self.beta_opt s) as [beta|].
  - destruct (Nat.eqb (shape1 X) (size beta)); reflexivity.
  - destruct (Nat.eqb (shape0 X) 0 || Nat.eqb (shape1 X) 0); reflexivity.
Qed.

Lemma predict_not_fitted (X : matrix) (s : HMLasso) :
  self.isFitted s = false ->
  predict X s =
  (Raise (AssertionError "The model has not yet been fitted."), s).
Proof. intros H. unfold predict. munfold. rewrite H. reflexivity. Qed.

(** ** Sessions *)

Section Sessions.

Variable ERRORS_HANDLING : string.
Variable eig : matrix -> result (list complex).
Variable solve_sdp : nat -> matrix -> matrix -> bool -> result (solved matrix).
Variable solve_qp_l1 :
  nat -> sigma_value -> vector -> float64 -> bool -> result (solved vector).

Let fit' := fit ERRORS_HANDLING eig solve_sdp solve_qp_l1.

(** C9: two runs that differ in [fit_intercept] only construct the same
    object, and so have the same [fit] outcome, the same fitted state
    (S_pair, rho_pair, R, Sigma_opt, beta_opt and the rest) and the same
    predictions. *)
Theorem C9_fit_intercept_never_consulted
        (mu alpha : float64) (verbose : bool) (f1 f2 : bool)
        (X : matrix) (y : labels) (Xs : list matrix) :
  init mu alpha f1 verbose = init mu alpha f2 verbose /\
  session ERRORS_HANDLING eig solve_sdp solve_qp_l1 mu alpha f1 verbose X y Xs =
  session ERRORS_HANDLING eig solve_sdp solve_qp_l1 mu alpha f2 verbose X y Xs.
Proof. split; reflexivity. Qed.

(** C3, as the code has it: [fit] compares the status a solve reports
    with nothing.  Past the checks, whatever the statuses and the flag:
    a solver call that raises makes [fit] raise that very exception; a
    covariance solve that returns without a value makes [fit] fail in
    [np.linalg.eig], with LinAlgError; one that returns a matrix on which
    [np.linalg.eig] or [min] raises makes [fit] raise that exception; and
    in every other case, once the coefficient solve returns -- with a
    value or without -- [fit] goes on with what the solvers handed back
    and completes. *)
Theorem C3_solver_status_not_inspected
        (X : matrix) (y : vector) (s : HMLasso) :
  shape0 X = size y ->
  centered X ->
  (forall e, first_solve solve_sdp X s = Raise e ->
             fit' X (Labels1 y) s = (Raise e, after_impute X y s)) /\
  (forall st1,
      first_solve solve_sdp X s = Ok (mkSolved st1 None) ->
      fit' X (Labels1 y) s =
      (Raise (LinAlgError "0-dimensional array given. Array must be at least two-dimensional"),
       after_first_solve X y None s)) /\
  (forall st1 Sigma,
      first_solve solve_sdp X s = Ok (mkSolved st1 (Some Sigma)) ->
      (forall e,
          eig Sigma = Raise e \/
          (exists evs, eig Sigma = Ok evs /\ py_min evs = Raise e) ->
          fit' X (Labels1 y) s =
          (Raise e, after_first_solve X y (Some Sigma) s)) /\
      (forall evs m,
          eig Sigma = Ok evs ->
          py_min evs = Ok m ->
          (forall e,
              second_solve ERRORS_HANDLING solve_qp_l1 X y Sigma m s
                = Raise e ->
              fit' X (Labels1 y) s =
              (Raise e, after_repair ERRORS_HANDLING X y Sigma m s)) /\
          (forall st2 beta,
              second_solve ERRORS_HANDLING solve_qp_l1 X y Sigma m s
                = Ok (mkSolved st2 beta) ->
              fit' X (Labels1 y) s =
              (Ok tt, fitted ERRORS_HANDLING X y Sigma m beta s) /\
              self.isFitted (fitted ERRORS_HANDLING X y Sigma m beta s)
                = true /\
              self.beta_opt (fitted ERRORS_HANDLING X y Sigma m beta s)
                = beta))).
Proof.
  intros Hs Hc. split; [|split].
  - intros e H1. now apply fit_first_solve_raises.
  - intros st1 H1. now apply fit_first_solve_no_value with (st := st1).
  - intros st1 Sigma H1. split.
    + intros e [H2|[evs [H2 H3]]].
      * eapply fit_eig_raises; eassumption.
      * eapply fit_min_raises; eassumption.
    + intros evs m H2 H3. split.
      * intros e H4. eapply fit_second_solve_raises; eassumption.
      * intros st2 beta H4. split; [|split; reflexivity].
        eapply fit_completes; eassumption.
Qed.

(** C8, as the code has it: [fit] does not look at the entries of [y].
    With a centered [X] and a [y] of the right length that holds a NaN, no
    assertion and no centering error is raised: [rho_pair] is computed and
    stored, NaN at every feature with a non-zero count, the call ends where
    the solver and eigenvalue calls take it, and it completes when they
    return. *)
Theorem C8_missing_labels_not_checked
        (X : matrix) (y : vector) (s : HMLasso) (k0 : nat) :
  shape0 X = size y ->
  centered X ->
  k0 < size y ->
  item1 y k0 = NaN ->
  fit_end ERRORS_HANDLING eig solve_sdp solve_qp_l1 X y s
          (fit' X (Labels1 y) s) /\
  self.rho_pair (snd (fit' X (Labels1 y) s)) = Some (rho_pair_of X y) /\
  (forall i, item (R_raw X) i i <> 0%Z -> item1 (rho_pair_of X y) i = NaN) /\
  (forall st1 st2 Sigma evs m beta,
      first_solve solve_sdp X s = Ok (mkSolved st1 (Some Sigma)) ->
      eig Sigma = Ok evs ->
      py_min evs = Ok m ->
      second_solve ERRORS_HANDLING solve_qp_l1 X y Sigma m s
        = Ok (mkSolved st2 beta) ->
      fit' X (Labels1 y) s =
      (Ok tt, fitted ERRORS_HANDLING X y Sigma m beta s)).
Proof.
  intros Hs Hc Hk H0. split; [|split; [|split]].
  - now apply fit_past_checks.
  - now apply fit_stores_params.
  - intros i Hi. now apply (@rho_pair_of_nan X y k0 i).
  - intros st1 st2 Sigma evs m beta H1 H2 H3 H4.
    eapply fit_completes; eassumption.
Qed.

(** C10: whatever way a [fit] call ends, the fitted flag afterwards is
    True if the call returned and what it was before if the call raised:
    it is set at the end of a successful call only and never reset.  A
    call that fails the centering check has by then overwritten [n] and
    [p] and nothing else; on an object that was fitted the flag is still
    True, so [predict] does not refuse on that ground and answers from the
    earlier coefficients.  A call that fails later, in a solver or in the
    eigenvalue step, has also overwritten S_pair, rho_pair and R. *)
Theorem C10_fit_not_atomic (X : matrix) (y : vector) (s : HMLasso) :
  shape0 X = size y ->
  self.isFitted (snd (fit' X (Labels1 y) s)) =
    (if is_ok (fst (fit' X (Labels1 y) s)) then true else self.isFitted s) /\
  (forall col current_mean,
      first_off_center X (seq 0 (shape1 X)) = Some (col, current_mean) ->
      let s' := snd (fit' X (Labels1 y) s) in
      fst (fit' X (Labels1 y) s) =
        Raise (Exception_not_centered col current_mean) /\
      self.isFitted s' = self.isFitted s /\
      self.n s' = Some (shape0 X) /\
      self.p s' = Some (shape1 X) /\
      self.S_pair s' = self.S_pair s /\
      self.rho_pair s' = self.rho_pair s /\
      self.R s' = self.R s /\
      self.Sigma_opt s' = self.Sigma_opt s /\
      self.beta_opt s' = self.beta_opt s /\
      (self.isFitted s = true ->
       (forall X', fst (predict X' s') <>
                   Raise (AssertionError "The model has not yet been fitted.")) /\
       (forall X' beta,
           self.beta_opt s = Some beta ->
           shape1 X' = shape1 X ->
           size beta = shape1 X ->
           np.isnan_any X' = false ->
           predict X' s' = (Ok (product (np.dot_mv X' beta)), s')))) /\
  (centered X ->
   forall e, fst (fit' X (Labels1 y) s) = Raise e ->
     let s' := snd (fit' X (Labels1 y) s) in
     self.isFitted s' = self.isFitted s /\
     self.n s' = Some (shape0 X) /\
     self.p s' = Some (shape1 X) /\
     self.S_pair s' = Some (S_pair_of X) /\
     self.rho_pair s' = Some (rho_pair_of X y) /\
     self.R s' = Some (R_of X (self.alpha s))).
Proof.
  intros Hs. split; [|split].
  - apply fit_isFitted.
  - intros col current_mean Hc. unfold fit'.
    rewrite (@fit_not_centered ERRORS_HANDLING eig solve_sdp solve_qp_l1
               X y s col current_mean Hs Hc).
    cbn [fst snd]. do 9 (split; [reflexivity|]). intros Hf. split.
    + intros X'. unfold predict. munfold.
      cbn [after_checks set_n_p self.isFitted self.p self.beta_opt].
      rewrite Hf.
      destruct (Nat.eqb (shape1 X') (shape1 X)); [|discriminate].
      destruct (np.isnan_any X'); [discriminate|].
      destruct (self.beta_opt s) as [beta|].
      * destruct (Nat.eqb (shape1 X') (size beta)); discriminate.
      * destruct (Nat.eqb (shape0 X') 0 || Nat.eqb (shape1 X') 0);
          discriminate.
    + intros X' beta Hb HX' Hsize Hnan. unfold predict. munfold.
      cbn [after_checks set_n_p self.isFitted self.p self.beta_opt].
      rewrite Hf, Hb, HX', Hnan, Hsize, !Nat.eqb_refl. reflexivity.
  - intros Hc e He. cbv zeta.
    split.
    + unfold fit'. rewrite fit_isFitted. fold fit'. rewrite He. reflexivity.
    + now apply fit_stores_params.
Qed.

End Sessions.

(** ** Concrete runs *)

Lemma fit_pm1_completes (st1 st2 : status) (y : vector) (beta : option vector) :
  size y = 2 ->
  fit "raise" eig_of_diagonal (sdp_returns st1) (qp_returns st2 beta)
      X_pm1 (Labels1 y) fresh =
  (Ok tt,
   fitted "raise" X_pm1 y (np.eye 1) (mkC (Fin 1) (Fin 0)) beta fresh).
Proof.
  intros Hy.
  apply (@fit_completes "raise" eig_of_diagonal (sdp_returns st1)
           (qp_returns st2 beta) X_pm1 y fresh st1 st2 (np.eye 1)
           [mkC (Fin 1) (Fin 0)]).
  - symmetry. exact Hy.
  - exact X_pm1_centered.
  - reflexivity.
  - reflexivity.
  - reflexivity.
  - reflexivity.
Qed.

Lemma C7_predict_is_matrix_vector_product_witness :
  snd (predict X_pm1 fitted_pm1) = fitted_pm1 /\
  (forall beta,
      self.beta_opt fitted_pm1 = Some beta ->
      size beta = shape1 X_pm1 ->
      predict X_pm1 fitted_pm1
      = (Ok (product (np.dot_mv X_pm1 beta)), fitted_pm1) /\
      size (np.dot_mv X_pm1 beta) = shape0 X_pm1 /\
      forall k,
        k < shape0 X_pm1 ->
        (forall i, i < shape1 X_pm1 ->
                   isfinite (item X_pm1 k i) = true /\
                   isfinite (item1 beta i) = true) ->
        (rsum (fun i => Rabs (val (item X_pm1 k i) * val (item1 beta i)))
              (shape1 X_pm1) <= DBL_MAX / 2)%R ->
        item1 (np.dot_mv X_pm1 beta) k =
        Fin (rsum (fun i => val (item X_pm1 k i) * val (item1 beta i))
                  (shape1 X_pm1))%R) /\
  (self.beta_opt fitted_pm1 = None ->
   (shape0 X_pm1 <> 0 -> shape1 X_pm1 <> 0 ->
    predict X_pm1 fitted_pm1 =
    (Raise (TypeError "unsupported operand type(s) for *: 'float' and 'NoneType'"),
     fitted_pm1)) /\
   (shape0 X_pm1 = 0 \/ shape1 X_pm1 = 0 ->
    predict X_pm1 fitted_pm1
    = (Ok (no_elements (shape0 X_pm1) (shape1 X_pm1)), fitted_pm1))).
Proof.
  apply (@C7_predict_is_matrix_vector_product X_pm1 fitted_pm1);
    reflexivity.
Defined.

(** C7 as worded fails: a [fit] of [fresh] on [X_pm1], [y_35] in which the
    coefficient solve returns no value completes and marks the object
    fitted with [p = 1]; [X_pm1] has one column and no NaN; and [predict]
    raises TypeError, there being no [beta_opt] to multiply with. *)
Lemma C7_counterexample :
  fit "raise" eig_of_diagonal (sdp_returns OPTIMAL)
      (qp_returns UNBOUNDED None) X_pm1 (Labels1 y_35) fresh =
  (Ok tt,
   fitted "raise" X_pm1 y_35 (np.eye 1) (mkC (Fin 1) (Fin 0)) None fresh) /\
  self.isFitted
    (fitted "raise" X_pm1 y_35 (np.eye 1) (mkC (Fin 1) (Fin 0)) None fresh)
    = true /\
  self.p
    (fitted "raise" X_pm1 y_35 (np.eye 1) (mkC (Fin 1) (Fin 0)) None fresh)
    = Some (shape1 X_pm1) /\
  np.isnan_any X_pm1 = false /\
  predict X_pm1
    (fitted "raise" X_pm1 y_35 (np.eye 1) (mkC (Fin 1) (Fin 0)) None fresh)
  = (Raise (TypeError "unsupported operand type(s) for *: 'float' and 'NoneType'"),
     fitted "raise" X_pm1 y_35 (np.eye 1) (mkC (Fin 1) (Fin 0)) None fresh).
Proof.
  split; [apply fit_pm1_completes; reflexivity|].
  repeat split.
Qed.

Lemma C3_solver_status_not_inspected_witness :
  (forall e, first_solve (sdp_returns OPTIMAL_INACCURATE) X_pm1 fresh
             = Raise e ->
             fit "raise" eig_of_diagonal (sdp_returns OPTIMAL_INACCURATE)
                 (qp_returns UNBOUNDED None) X_pm1 (Labels1 y_35) fresh
             = (Raise e, after_impute X_pm1 y_35 fresh)) /\
  (forall st1,
      first_solve (sdp_returns OPTIMAL_INACCURATE) X_pm1 fresh
        = Ok (mkSolved st1 None) ->
      fit "raise" eig_of_diagonal (sdp_returns OPTIMAL_INACCURATE)
          (qp_returns UNBOUNDED None) X_pm1 (Labels1 y_35) fresh =
      (Raise (LinAlgError "0-dimensional array given. Array must be at least two-dimensional"),
       after_first_solve X_pm1 y_35 None fresh)) /\
  (forall st1 Sigma,
      first_solve (sdp_returns OPTIMAL_INACCURATE) X_pm1 fresh
        = Ok (mkSolved st1 (Some Sigma)) ->
      (forall e,
          eig_of_diagonal Sigma = Raise e \/
          (exists evs, eig_of_diagonal Sigma = Ok evs /\ py_min evs = Raise e) ->
          fit "raise" eig_of_diagonal (sdp_returns OPTIMAL_INACCURATE)
              (qp_returns UNBOUNDED None) X_pm1 (Labels1 y_35) fresh =
          (Raise e, after_first_solve X_pm1 y_35 (Some Sigma) fresh)) /\
      (forall evs m,
          eig_of_diagonal Sigma = Ok evs ->
          py_min evs = Ok m ->
          (forall e,
              second_solve "raise" (qp_returns UNBOUNDED None)
                           X_pm1 y_35 Sigma m fresh = Raise e ->
              fit "raise" eig_of_diagonal (sdp_returns OPTIMAL_INACCURATE)
                  (qp_returns UNBOUNDED None) X_pm1 (Labels1 y_35) fresh =
              (Raise e, after_repair "raise" X_pm1 y_35 Sigma m fresh)) /\
          (forall st2 beta,
              second_solve "raise" (qp_returns UNBOUNDED None)
                           X_pm1 y_35 Sigma m fresh
                = Ok (mkSolved st2 beta) ->
              fit "raise" eig_of_diagonal (sdp_returns OPTIMAL_INACCURATE)
                  (qp_returns UNBOUNDED None) X_pm1 (Labels1 y_35) fresh =
              (Ok tt, fitted "raise" X_pm1 y_35 Sigma m beta fresh) /\
              self.isFitted (fitted "raise" X_pm1 y_35 Sigma m beta fresh)
                = true /\
              self.beta_opt (fitted "raise" X_pm1 y_35 Sigma m beta fresh)
                = beta))).
Proof.
  apply (@C3_solver_status_not_inspected "raise" eig_of_diagonal
           (sdp_returns OPTIMAL_INACCURATE) (qp_returns UNBOUNDED None)
           X_pm1 y_35 fresh).
  - reflexivity.
  - exact X_pm1_centered.
Defined.

(** C3 as worded fails: with the flag at "raise", a covariance solve that
    reports OPTIMAL_INACCURATE and a coefficient solve that reports
    UNBOUNDED and leaves no value, the call returns, the object is marked
    fitted, and [beta_opt] is None. *)
Lemma C3_counterexample :
  first_solve (sdp_returns OPTIMAL_INACCURATE) X_pm1 fresh =
    Ok (mkSolved OPTIMAL_INACCURATE (Some (np.eye 1))) /\
  is_optimal OPTIMAL_INACCURATE = false /\
  second_solve "raise" (qp_returns UNBOUNDED None) X_pm1 y_35
               (np.eye 1) (mkC (Fin 1) (Fin 0)) fresh =
    Ok (mkSolved UNBOUNDED None) /\
  is_optimal UNBOUNDED = false /\
  fst (fit "raise" eig_of_diagonal (sdp_returns OPTIMAL_INACCURATE)
           (qp_returns UNBOUNDED None) X_pm1 (Labels1 y_35) fresh) = Ok tt /\
  self.isFitted
    (snd (fit "raise" eig_of_diagonal (sdp_returns OPTIMAL_INACCURATE)
              (qp_returns UNBOUNDED None) X_pm1 (Labels1 y_35) fresh))
    = true /\
  self.Sigma_opt
    (snd (fit "raise" eig_of_diagonal (sdp_returns OPTIMAL_INACCURATE)
              (qp_returns UNBOUNDED None) X_pm1 (Labels1 y_35) fresh))
    = Some (Plain (np.eye 1)) /\
  self.beta_opt
    (snd (fit "raise" eig_of_diagonal (sdp_returns OPTIMAL_INACCURATE)
              (qp_returns UNBOUNDED None) X_pm1 (Labels1 y_35) fresh))
    = None.
Proof.
  rewrite fit_pm1_completes by reflexivity.
  cbn [fst snd]. unfold fitted, after_repair, repaired, clt, flt, feq.
  cbn. Rdecide. cbn. repeat split; reflexivity.
Qed.

Lemma C8_missing_labels_not_checked_witness :
  fit_end "raise" eig_of_diagonal (sdp_returns OPTIMAL)
          (qp_returns OPTIMAL (Some beta_2)) X_pm1 y_nan5 fresh
          (fit "raise" eig_of_diagonal (sdp_returns OPTIMAL)
               (qp_returns OPTIMAL (Some beta_2)) X_pm1 (Labels1 y_nan5)
               fresh) /\
  self.rho_pair
    (snd (fit "raise" eig_of_diagonal (sdp_returns OPTIMAL)
              (qp_returns OPTIMAL (Some beta_2)) X_pm1 (Labels1 y_nan5)
              fresh))
    = Some (rho_pair_of X_pm1 y_nan5) /\
  (forall i, item (R_raw X_pm1) i i <> 0%Z ->
             item1 (rho_pair_of X_pm1 y_nan5) i = NaN) /\
  (forall st1 st2 Sigma evs m beta,
      first_solve (sdp_returns OPTIMAL) X_pm1 fresh
        = Ok (mkSolved st1 (Some Sigma)) ->
      eig_of_diagonal Sigma = Ok evs ->
      py_min evs = Ok m ->
      second_solve "raise" (qp_returns OPTIMAL (Some beta_2))
                   X_pm1 y_nan5 Sigma m fresh
        = Ok (mkSolved st2 beta) ->
      fit "raise" eig_of_diagonal (sdp_returns OPTIMAL)
          (qp_returns OPTIMAL (Some beta_2)) X_pm1 (Labels1 y_nan5) fresh =
      (Ok tt, fitted "raise" X_pm1 y_nan5 Sigma m beta fresh)).
Proof.
  apply (@C8_missing_labels_not_checked "raise" eig_of_diagonal
           (sdp_returns OPTIMAL) (qp_returns OPTIMAL (Some beta_2))
           X_pm1 y_nan5 fresh 0).
  - reflexivity.
  - exact X_pm1_centered.
  - cbn. lia.
  - reflexivity.
Defined.

(** C8 as worded fails: [y_nan5] has a missing first label, yet with
    solvers that return, [fit] raises nothing, marks the object fitted and
    has stored NaN as [rho_pair[0]]. *)
Lemma C8_counterexample :
  isnan (item1 y_nan5 0) = true /\
  fst (fit "raise" eig_of_diagonal (sdp_returns OPTIMAL)
           (qp_returns OPTIMAL (Some beta_2)) X_pm1 (Labels1 y_nan5) fresh)
    = Ok tt /\
  self.isFitted
    (snd (fit "raise" eig_of_diagonal (sdp_returns OPTIMAL)
              (qp_returns OPTIMAL (Some beta_2)) X_pm1 (Labels1 y_nan5)
              fresh)) = true /\
  option_map (fun rho => item1 rho 0)
    (self.rho_pair
       (snd (fit "raise" eig_of_diagonal (sdp_returns OPTIMAL)
                 (qp_returns OPTIMAL (Some beta_2)) X_pm1 (Labels1 y_nan5)
                 fresh))) = Some NaN.
Proof.
  rewrite fit_pm1_completes by reflexivity.
  cbn [fst snd]. repeat split; try reflexivity.
  cbn [fitted after_repair after_first_solve after_impute after_checks
       set_isFitted set_beta_opt set_isSecondProblemSolved set_Sigma_opt
       set_isFirstProblemSolved set_params set_n_p self.rho_pair option_map].
  f_equal. apply (@rho_pair_of_nan X_pm1 y_nan5 0 0).
  - reflexivity.
  - cbn. lia.
  - reflexivity.
  - rewrite R_raw_item. unfold count_rows, counted, fne, feq, X_pm1.
    cbn. Rdecide. discriminate.
Qed.

Lemma C10_fit_not_atomic_witness :
  self.isFitted (snd (fit "raise" eig_of_diagonal (sdp_returns OPTIMAL)
           (qp_returns OPTIMAL (Some beta_2))
           X_off_center (Labels1 y_35) fitted_pm1)) =
    (if is_ok (fst (fit "raise" eig_of_diagonal (sdp_returns OPTIMAL)
           (qp_returns OPTIMAL (Some beta_2))
           X_off_center (Labels1 y_35) fitted_pm1)) then true else self.isFitted fitted_pm1) /\
  (forall col current_mean,
      first_off_center X_off_center (seq 0 (shape1 X_off_center))
        = Some (col, current_mean) ->
      let s' := snd (fit "raise" eig_of_diagonal (sdp_returns OPTIMAL)
           (qp_returns OPTIMAL (Some beta_2))
           X_off_center (Labels1 y_35) fitted_pm1) in
      fst (fit "raise" eig_of_diagonal (sdp_returns OPTIMAL)
           (qp_returns OPTIMAL (Some beta_2))
           X_off_center (Labels1 y_35) fitted_pm1) = Raise (Exception_not_centered col current_mean) /\
      self.isFitted s' = self.isFitted fitted_pm1 /\
      self.n s' = Some (shape0 X_off_center) /\
      self.p s' = Some (shape1 X_off_center) /\
      self.S_pair s' = self.S_pair fitted_pm1 /\
      self.rho_pair s' = self.rho_pair fitted_pm1 /\
      self.R s' = self.R fitted_pm1 /\
      self.Sigma_opt s' = self.Sigma_opt fitted_pm1 /\
      self.beta_opt s' = self.beta_opt fitted_pm1 /\
      (self.isFitted fitted_pm1 = true ->
       (forall X', fst (predict X' s') <>
                   Raise (AssertionError "The model has not yet been fitted.")) /\
       (forall X' beta,
           self.beta_opt fitted_pm1 = Some beta ->
           shape1 X' = shape1 X_off_center ->
           size beta = shape1 X_off_center ->
           np.isnan_any X' = false ->
           predict X' s' = (Ok (product (np.dot_mv X' beta)), s')))) /\
  (centered X_off_center ->
   forall e, fst (fit "raise" eig_of_diagonal (sdp_returns OPTIMAL)
           (qp_returns OPTIMAL (Some beta_2))
           X_off_center (Labels1 y_35) fitted_pm1) = Raise e ->
     let s' := snd (fit "raise" eig_of_diagonal (sdp_returns OPTIMAL)
           (qp_returns OPTIMAL (Some beta_2))
           X_off_center (Labels1 y_35) fitted_pm1) in
     self.isFitted s' = self.isFitted fitted_pm1 /\
     self.n s' = Some (shape0 X_off_center) /\
     self.p s' = Some (shape1 X_off_center) /\
     self.S_pair s' = Some (S_pair_of X_off_center) /\
     self.rho_pair s' = Some (rho_pair_of X_off_center y_35) /\
     self.R s' = Some (R_of X_off_center (self.alpha fitted_pm1))).
Proof.
  apply (@C10_fit_not_atomic "raise" eig_of_diagonal (sdp_returns OPTIMAL)
           (qp_returns OPTIMAL (Some beta_2)) X_off_center y_35 fitted_pm1).
  reflexivity.
Defined.

(** The scenario of C10 run through: [fitted_pm1] is fitted; a second
    [fit], on the off-center [X_off_center], raises the centering error;
    afterwards the object is still marked fitted and [predict] on [X_pm1]
    answers 2 and -2, from the coefficients of the first fit. *)
Lemma stale_prediction_after_failed_fit :
  fit "raise" eig_of_diagonal (sdp_returns OPTIMAL)
      (qp_returns OPTIMAL (Some beta_2))
      X_off_center (Labels1 y_35) fitted_pm1 =
  (Raise (Exception_not_centered 0 (Fin 2)),
   after_checks X_off_center fitted_pm1) /\
  self.isFitted (after_checks X_off_center fitted_pm1) = true /\
  fst (predict X_pm1 (after_checks X_off_center fitted_pm1)) =
  Ok (product (np.dot_mv X_pm1 beta_2)) /\
  same_number (item1 (np.dot_mv X_pm1 beta_2) 0) (Fin 2) /\
  same_number (item1 (np.dot_mv X_pm1 beta_2) 1) (Fin (-2)).
Proof.
  split; [|split; [|split; [|split]]].
  - apply fit_not_centered; [reflexivity|exact X_off_center_mean].
  - reflexivity.
  - reflexivity.
  - cbn. lra.
  - cbn. lra.
Qed.


(** ** The repair in exact arithmetic *)

(** What a completed [fit] has stored as [Sigma_opt]: the solver's matrix,
    shifted by the minimum eigenvalue when that is negative, wrapped when
    the flag says "ignore". *)
Lemma fitted_Sigma_opt
      (ERRORS_HANDLING : string) (X : matrix) (y : vector) (Sigma : matrix)
      (m : complex) (beta : option vector) (s : HMLasso) :
  self.Sigma_opt (fitted ERRORS_HANDLING X y Sigma m beta s) =
  Some (repaired ERRORS_HANDLING Sigma m (shape1 X)).
Proof. reflexivity. Qed.

Lemma rsum_ext (f g : nat -> R) (n : nat) :
  (forall k, k < n -> f k = g k) -> rsum f n = rsum g n.
Proof.
  induction n as [|n IH]; intros H; [reflexivity|].
  cbn [rsum]. rewrite IH by (intros; apply H; lia).
  rewrite H by lia. reflexivity.
Qed.

Lemma rsum_minus (f g : nat -> R) (n : nat) :
  rsum (fun k => (f k - g k)%R) n = (rsum f n - rsum g n)%R.
Proof. induction n as [|n IH]; cbn [rsum]; [lra|rewrite IH; lra]. Qed.

Lemma rsum_zero (f : nat -> R) (n : nat) :
  (forall k, k < n -> f k = 0%R) -> rsum f n = 0%R.
Proof.
  induction n as [|n IH]; intros H; [reflexivity|].
  cbn [rsum]. rewrite IH by (intros; apply H; lia).
  rewrite H by lia. lra.
Qed.

(** A sum that picks out the diagonal term. *)
Lemma rsum_diagonal (c : R) (v : nat -> R) (i n : nat) :
  i < n ->
  rsum (fun j => (c * (if Nat.eqb i j then 1 else 0) * v j)%R) n
  = (c * v i)%R.
Proof.
  induction n as [|n IH]; intros Hi; [lia|].
  cbn [rsum]. destruct (Nat.eq_dec i n) as [->|Hne].
  - rewrite Nat.eqb_refl. rewrite rsum_zero; [lra|].
    intros k Hk. replace (Nat.eqb n k) with false
      by (symmetry; apply Nat.eqb_neq; lia). lra.
  - rewrite IH by lia.
    replace (Nat.eqb i n) with false by (symmetry; now apply Nat.eqb_neq).
    lra.
Qed.

Lemma shift_item (M : matrix) (m : complex) (p i j : nat) (a mr mi : R) :
  item M i j = Fin a ->
  re m = Fin mr ->
  im m = Fin mi ->
  item (shift M m p) i j
  = Fin (a - mr * (if Nat.eqb i j then 1 else 0)).
Proof.
  intros Ha Hm Hi. unfold shift, np.eye. cbn [item]. rewrite Ha, Hm, Hi.
  destruct (Nat.eqb i j); cbn; f_equal; lra.
Qed.

(** An eigenvector of the shifted matrix is one of the matrix itself, for
    the eigenvalue moved back by the shift. *)
Lemma shift_eigenpair (M : matrix) (m : complex) (p : nat) (mr mi lam : R)
      (v : nat -> R) :
  finite_square M p ->
  re m = Fin mr ->
  im m = Fin mi ->
  eigenpair (shift M m p) lam v ->
  eigenpair M (lam + mr) v.
Proof.
  intros (H0 & H1 & Hfin) Hm Him [Hv Hrow]. split.
  - exact Hv.
  - intros i Hi. rewrite H0 in Hi.
    specialize (Hrow i). cbn [shift shape0 shape1] in Hrow.
    rewrite H0, H1 in Hrow. specialize (Hrow Hi). rewrite H1.
    rewrite (@fsum_rsum _
               (fun j => ((val (item M i j)
                           - mr * (if Nat.eqb i j then 1 else 0)) * v j)%R))
      in Hrow.
    2:{ intros j Hj.
        destruct (isfinite_Fin _ (Hfin i j Hi Hj)) as [a Ha].
        rewrite (@shift_item M m p i j a mr mi Ha Hm Him), Ha.
        reflexivity. }
    rewrite (@fsum_rsum _ (fun j => (val (item M i j) * v j)%R)).
    2:{ intros j Hj.
        destruct (isfinite_Fin _ (Hfin i j Hi Hj)) as [a Ha].
        rewrite Ha. reflexivity. }
    f_equal. injection Hrow as Hrow.
    rewrite (rsum_ext
               (fun j => ((val (item M i j)
                           - mr * (if Nat.eqb i j then 1 else 0)) * v j)%R)
               (fun j => (val (item M i j) * v j
                          - mr * (if Nat.eqb i j then 1 else 0) * v j)%R))
      in Hrow by (intros; lra).
    rewrite rsum_minus, rsum_diagonal in Hrow by exact Hi.
    lra.
Qed.

(** With exact eigenvalues -- [min_eigenvalue] a finite number whose real
    part is below every real eigenvalue of [Sigma] -- the repaired matrix
    has no negative real eigenvalue, whatever [Sigma] the solver returned
    and whatever the flag. *)
Lemma repaired_spectrum_nonnegative
      (ERRORS_HANDLING : string) (Sigma : matrix) (p : nat) (mr mi : R) :
  finite_square Sigma p ->
  (forall lam v, eigenpair Sigma lam v -> (mr <= lam)%R) ->
  forall lam v,
    eigenpair (unwrap (repaired ERRORS_HANDLING Sigma (mkC (Fin mr) (Fin mi)) p))
              lam v ->
    (0 <= lam)%R.
Proof.
  intros Hsq Hmin lam v.
  assert (Hun : unwrap (repaired ERRORS_HANDLING Sigma (mkC (Fin mr) (Fin mi)) p)
                = if clt (mkC (Fin mr) (Fin mi)) (mkC (Fin 0) (Fin 0))
                  then shift Sigma (mkC (Fin mr) (Fin mi)) p else Sigma).
  { unfold repaired. destruct (String.eqb ERRORS_HANDLING "ignore"); reflexivity. }
  rewrite Hun. clear Hun.
  destruct (clt (mkC (Fin mr) (Fin mi)) (mkC (Fin 0) (Fin 0))) eqn:Hc.
  - intros Hp.
    assert (Hp' : eigenpair Sigma (lam + mr) v).
    { apply (@shift_eigenpair Sigma (mkC (Fin mr) (Fin mi)) p mr mi lam v);
        [exact Hsq|reflexivity|reflexivity|exact Hp]. }
    specialize (Hmin _ _ Hp'). lra.
  - intros Hp. specialize (Hmin _ _ Hp).
    unfold clt, flt, feq in Hc. cbn [re im] in Hc.
    apply orb_false_elim in Hc. destruct Hc as [Hc _].
    apply Rlt_b_false in Hc. lra.
Qed.

(** The repair keeps a symmetric matrix symmetric. *)
Lemma repaired_symmetric
      (ERRORS_HANDLING : string) (Sigma : matrix) (m : complex) (p : nat) :
  symmetric Sigma ->
  symmetric (unwrap (repaired ERRORS_HANDLING Sigma m p)).
Proof.
  intros [Hsq Hsym]. unfold repaired.
  assert (Hshift : symmetric (shift Sigma m p)).
  { split; [exact Hsq|]. intros i j Hi Hj. unfold shift, np.eye. cbn [item].
    cbn [shift shape0] in Hi, Hj. rewrite (Hsym i j Hi Hj).
    rewrite (Nat.eqb_sym i j). reflexivity. }
  destruct (clt m (mkC (Fin 0) (Fin 0)));
    destruct (String.eqb ERRORS_HANDLING "ignore"); cbn [unwrap];
    (exact Hshift || (split; [exact Hsq|exact Hsym])).
Qed.

(** * Part IV: further properties of the code *)

(** ** Construction *)

Lemma fge_zero_nonnegative (x : float64) :
  fge x (Fin 0) = true <-> nonnegative x.
Proof.
  destruct x as [| | |r]; unfold fge, flt, feq, nonnegative.
  - split; [discriminate|tauto].
  - split; [tauto|reflexivity].
  - split; [discriminate|tauto].
  - rewrite orb_true_iff, Rlt_b_true, Req_b_true. lra.
Qed.

(** [__init__] accepts its hyperparameters exactly when both are
    non-negative numbers (plus infinity included, NaN not); the object it
    builds is unfitted with every derived attribute None.  Otherwise it
    raises the assertion on [mu] first, on [alpha] second. *)
Theorem init_accepts_nonnegative
        (mu alpha : float64) (fit_intercept verbose : bool) :
  (nonnegative mu /\ nonnegative alpha <->
   init mu alpha fit_intercept verbose =
   Ok (self.mkHMLasso mu alpha verbose
         None None None None None None None false false false)) /\
  (is_ok (init mu alpha fit_intercept verbose) = true <->
   nonnegative mu /\ nonnegative alpha) /\
  (~ nonnegative mu ->
   init mu alpha fit_intercept verbose =
   Raise (AssertionError "mu must be a positive number.")) /\
  (nonnegative mu -> ~ nonnegative alpha ->
   init mu alpha fit_intercept verbose =
   Raise (AssertionError "alpha must be a positive number.")).
Proof.
  unfold init.
  pose proof (fge_zero_nonnegative mu) as Hm.
  pose proof (fge_zero_nonnegative alpha) as Ha.
  destruct (fge mu (Fin 0)), (fge alpha (Fin 0)); cbn;
    repeat split; intros; try reflexivity; try discriminate;
    try tauto;
    try (exfalso; intuition discriminate).
Qed.

(** ** Prediction *)

Lemma any_below_false (f : nat -> bool) (n : nat) :
  any_below f n = false <-> forall k, k < n -> f k = false.
Proof.
  induction n as [|n IH]; cbn [any_below].
  - split; [intros _ k Hk; lia|reflexivity].
  - rewrite orb_false_iff, IH. split.
    + intros [H1 H2] k Hk. destruct (Nat.eq_dec k n) as [->|Hne];
        [exact H2|apply H1; lia].
    + intros H. split; [intros k Hk; apply H; lia|apply H; lia].
Qed.

Lemma isnan_any_false (X : matrix) :
  np.isnan_any X = false <->
  forall k i, k < shape0 X -> i < shape1 X -> isnan (item X k i) = false.
Proof.
  unfold np.isnan_any. rewrite any_below_false. split.
  - intros H k i Hk Hi. specialize (H k Hk).
    rewrite any_below_false in H. now apply H.
  - intros H k Hk. apply any_below_false. intros i Hi. now apply H.
Qed.

(** [predict] returns a value exactly when the object is marked fitted,
    [X] has [p] columns and no NaN entry, and either [beta_opt] is a
    vector of as many entries as [X] has columns, or [beta_opt] is None and
    [X] has no element: with no row or no column there is nothing for
    [np.dot] to multiply with None, and it hands back an empty array. *)
Theorem predict_returns_iff (X : matrix) (s : HMLasso) :
  (exists y_hat, fst (predict X s) = Ok y_hat) <->
  (self.isFitted s = true /\
   self.p s = Some (shape1 X) /\
   (forall k i, k < shape0 X -> i < shape1 X -> isnan (item X k i) = false) /\
   ((exists beta, self.beta_opt s = Some beta /\ size beta = shape1 X) \/
    (self.beta_opt s = None /\ (shape0 X = 0 \/ shape1 X = 0)))).
Proof.
  rewrite <- isnan_any_false. unfold predict. munfold. split.
  - intros [y_hat H].
    destruct (self.isFitted s); [|discriminate].
    destruct (self.p s) as [q|]; [|discriminate].
    destruct (Nat.eqb_spec (shape1 X) q) as [Hq|]; [|discriminate].
    subst q.
    destruct (np.isnan_any X); [discriminate|].
    repeat split.
    destruct (self.beta_opt s) as [beta|].
    + destruct (Nat.eqb_spec (shape1 X) (size beta)) as [Hb|];
        [|discriminate].
      left. exists beta. split; [reflexivity|congruence].
    + right. split; [reflexivity|].
      destruct (Nat.eqb_spec (shape0 X) 0) as [H0|_]; [now left|].
      destruct (Nat.eqb_spec (shape1 X) 0) as [H1|_]; [now right|].
      discriminate.
  - intros (Hf & Hp & Hnan & [(beta & Hb & Hsize)|(Hb & Hempty)]).
    + rewrite Hf, Hp, Hnan, Hb, Hsize, !Nat.eqb_refl.
      eexists. reflexivity.
    + rewrite Hf, Hp, Hnan, Hb, !Nat.eqb_refl.
      replace (Nat.eqb (shape0 X) 0 || Nat.eqb (shape1 X) 0) with true.
      * eexists. reflexivity.
      * symmetry. apply orb_true_iff.
        destruct Hempty as [H|H]; [left|right]; now apply Nat.eqb_eq.
Qed.

(** What [predict] refuses, in the order it checks: an object not marked
    fitted; then an [X] whose column count is not [p]; then an [X] with a
    NaN entry.  Each time the object is left as it was. *)
Theorem predict_refusals (X : matrix) (s : HMLasso) :
  (self.isFitted s = false ->
   predict X s =
   (Raise (AssertionError "The model has not yet been fitted."), s)) /\
  (self.isFitted s = true -> self.p s <> Some (shape1 X) ->
   predict X s =
   (Raise (AssertionError_dimension (shape1 X) (self.p s)), s)) /\
  (self.isFitted s = true -> self.p s = Some (shape1 X) ->
   forall k i, k < shape0 X -> i < shape1 X -> isnan (item X k i) = true ->
   predict X s = (Raise (AssertionError "Input contains NaN."), s)).
Proof.
  unfold predict. munfold. repeat split.
  - intros ->. reflexivity.
  - intros -> Hp. destruct (self.p s) as [q|]; [|reflexivity].
    destruct (Nat.eqb_spec (shape1 X) q) as [Hq|]; [congruence|reflexivity].
  - intros -> -> k i Hk Hi Hnan. rewrite Nat.eqb_refl.
    destruct (np.isnan_any X) eqn:Hany; [reflexivity|].
    rewrite isnan_any_false in Hany. rewrite (Hany k i Hk Hi) in Hnan.
    discriminate.
Qed.

(** An estimator that was constructed and never fitted refuses every
    prediction. *)
Theorem predict_before_fit
        (mu alpha : float64) (fit_intercept verbose : bool) (s : HMLasso)
        (X : matrix) :
  init mu alpha fit_intercept verbose = Ok s ->
  predict X s =
  (Raise (AssertionError "The model has not yet been fitted."), s).
Proof.
  unfold init. intros H.
  destruct (negb (fge mu (Fin 0))); [discriminate|].
  destruct (negb (fge alpha (Fin 0))); [discriminate|].
  injection H as <-. reflexivity.
Qed.

Lemma predict_before_fit_witness :
  predict X_pm1 fresh =
  (Raise (AssertionError "The model has not yet been fitted."), fresh).
Proof.
  apply (@predict_before_fit (Fin 1) (Fin 1) true false fresh X_pm1).
  exact init_default.
Defined.

(** ** The centering check *)

Lemma first_off_center_none (X : matrix) (len a : nat) :
  first_off_center X (seq a len) = None <->
  forall c, a <= c < a + len -> off_center X c = false.
Proof.
  revert a. induction len as [|len IH]; intros a; cbn [seq first_off_center].
  - split; [intros _ c Hc; lia|reflexivity].
  - fold (off_center X a). destruct (off_center X a) eqn:Ha.
    + split; [discriminate|]. intros H.
      assert (off_center X a = false) by (apply H; lia). congruence.
    + rewrite IH. split.
      * intros H c Hc. destruct (Nat.eq_dec c a) as [->|Hne];
          [exact Ha|apply H; lia].
      * intros H c Hc. apply H. lia.
Qed.

Lemma first_off_center_some (X : matrix) (len a col : nat) (m : float64) :
  first_off_center X (seq a len) = Some (col, m) <->
  (a <= col < a + len /\
   m = np.column_mean X col /\
   off_center X col = true /\
   forall c, a <= c < col -> off_center X c = false).
Proof.
  revert a. induction len as [|len IH]; intros a; cbn [seq first_off_center].
  - split; [discriminate|]. intros [H _]. lia.
  - fold (off_center X a). destruct (off_center X a) eqn:Ha.
    + split.
      * intros H. injection H as <- <-.
        repeat split; try lia; try assumption.
      * intros (Hcol & -> & Hoff & Hbefore).
        destruct (Nat.eq_dec col a) as [->|Hne]; [reflexivity|].
        assert (off_center X a = false) by (apply Hbefore; lia). congruence.
    + rewrite IH. split.
      * intros (Hcol & Hm & Hoff & Hbefore).
        repeat split; try lia; try assumption.
        intros c Hc. destruct (Nat.eq_dec c a) as [->|Hne];
          [exact Ha|apply Hbefore; lia].
      * intros (Hcol & Hm & Hoff & Hbefore).
        assert (col <> a) by (intros ->; congruence).
        repeat split; try lia; try assumption.
        intros c Hc. apply Hbefore. lia.
Qed.

(** [__verify_centering__], on an object whose [p] is the column count of
    [X]: it returns when no column is off center; otherwise it raises for
    the first column that is, lower columns all passing, with that
    column's mean in the exception.  It never changes the object. *)
Theorem verify_centering_reports_first (X : matrix) (s : HMLasso) :
  self.p s = Some (shape1 X) ->
  (verify_centering X s = (Ok tt, s) <->
   forall c, c < shape1 X -> off_center X c = false) /\
  (forall col m,
      verify_centering X s = (Raise (Exception_not_centered col m), s) <->
      (col < shape1 X /\
       m = np.column_mean X col /\
       off_center X col = true /\
       forall c, c < col -> off_center X c = false)) /\
  snd (verify_centering X s) = s.
Proof.
  intros Hp. unfold verify_centering. munfold. rewrite Hp, Nat.min_id.
  rewrite Nat.ltb_irrefl.
  destruct (first_off_center X (seq 0 (shape1 X))) as [[col0 m0]|] eqn:H.
  - apply first_off_center_some in H.
    destruct H as (Hcol & Hm & Hoff & Hbefore).
    split; [|split; [|reflexivity]].
    + split; [discriminate|]. intros Hall.
      assert (off_center X col0 = false) by (apply Hall; lia). congruence.
    + intros col m. split.
      * intros Heq. injection Heq as <- <-.
        repeat split; try lia; try assumption. intros c Hc. apply Hbefore. lia.
      * intros (Hc1 & -> & Hoff1 & Hbefore1).
        assert (col = col0).
        { destruct (Nat.lt_trichotomy col col0) as [Hlt|[Heq|Hgt]].
          - assert (off_center X col = false) by (apply Hbefore; lia).
            congruence.
          - exact Heq.
          - assert (off_center X col0 = false) by (apply Hbefore1; lia).
            congruence. }
        subst col. rewrite Hm. reflexivity.
  - pose proof H as H'. rewrite first_off_center_none in H'.
    split; [|split; [|reflexivity]].
    + split; [intros _ c Hc; apply H'; lia|reflexivity].
    + intros col m. split; [discriminate|].
      intros (Hc1 & _ & Hoff1 & _).
      assert (off_center X col = false) by (apply H'; lia). congruence.
Qed.

Lemma verify_centering_reports_first_witness :
  (verify_centering X_off_center (prepared (Fin 1) (Fin 1) false X_off_center)
   = (Ok tt, prepared (Fin 1) (Fin 1) false X_off_center) <->
   forall c, c < shape1 X_off_center -> off_center X_off_center c = false) /\
  (forall col m,
      verify_centering X_off_center
                       (prepared (Fin 1) (Fin 1) false X_off_center)
      = (Raise (Exception_not_centered col m),
         prepared (Fin 1) (Fin 1) false X_off_center) <->
      (col < shape1 X_off_center /\
       m = np.column_mean X_off_center col /\
       off_center X_off_center col = true /\
       forall c, c < col -> off_center X_off_center c = false)) /\
  snd (verify_centering X_off_center
                        (prepared (Fin 1) (Fin 1) false X_off_center))
  = prepared (Fin 1) (Fin 1) false X_off_center.
Proof.
  apply (@verify_centering_reports_first X_off_center
           (prepared (Fin 1) (Fin 1) false X_off_center)).
  reflexivity.
Defined.

Lemma off_center_nan_mean (X : matrix) (col : nat) :
  np.column_mean X col = NaN -> off_center X col = false.
Proof. unfold off_center. intros ->. reflexivity. Qed.

Lemma column_mean_nan (X : matrix) (col k : nat) :
  k < shape0 X -> isnan (item X k col) = true -> np.column_mean X col = NaN.
Proof.
  intros Hk Hnan. unfold np.column_mean.
  rewrite (@fsum_nan _ (shape0 X) k); [reflexivity|exact Hk|].
  destruct (item X k col); try discriminate. reflexivity.
Qed.

Lemma column_mean_no_rows (X : matrix) (col : nat) :
  shape0 X = 0 -> np.column_mean X col = NaN.
Proof.
  intros H. unfold np.column_mean, fdiv, of_nat, sign. rewrite H. cbn.
  Rdecide. reflexivity.
Qed.

Lemma verify_centering_passes (X : matrix) (s : HMLasso) :
  self.p s = Some (shape1 X) ->
  (forall c, c < shape1 X -> off_center X c = false) ->
  verify_centering X s = (Ok tt, s).
Proof.
  intros Hp Hall. unfold verify_centering. munfold.
  rewrite Hp, Nat.min_id, Nat.ltb_irrefl.
  rewrite (proj2 (first_off_center_none X (shape1 X) 0)); [reflexivity|].
  intros c Hc. apply Hall. lia.
Qed.

(** The centering check does not see a column that holds a missing entry,
    nor any column of a matrix without rows: the mean is NaN, and NaN is
    not above the tolerance.  A matrix in which every column has a NaN
    passes the check whatever its other entries are. *)
Theorem centering_blind_to_incomplete_columns (X : matrix) :
  (forall col, col < shape1 X ->
     shape0 X = 0 \/ exists k, k < shape0 X /\ isnan (item X k col) = true) ->
  centered X /\
  forall s, self.p s = Some (shape1 X) -> verify_centering X s = (Ok tt, s).
Proof.
  intros H.
  assert (Hall : forall c, c < shape1 X -> off_center X c = false).
  { intros c Hc. apply off_center_nan_mean.
    destruct (H c Hc) as [H0|[k [Hk Hnan]]].
    - now apply column_mean_no_rows.
    - now apply (@column_mean_nan X c k). }
  split.
  - unfold centered. apply first_off_center_none. intros c Hc. apply Hall. lia.
  - intros s Hp. now apply verify_centering_passes.
Qed.

Lemma centering_blind_to_incomplete_columns_witness :
  centered X_nan_columns /\
  forall s, self.p s = Some (shape1 X_nan_columns) ->
            verify_centering X_nan_columns s = (Ok tt, s).
Proof.
  apply (@centering_blind_to_incomplete_columns X_nan_columns).
  intros col Hcol. right.
  destruct col as [|[|col]].
  - exists 0. split; [cbn; lia|reflexivity].
  - exists 1. split; [cbn; lia|reflexivity].
  - cbn in Hcol. lia.
Defined.

(** ** More on [fit] *)

Section FitFurther.

Variable ERRORS_HANDLING : string.
Variable eig : matrix -> result (list complex).
Variable solve_sdp : nat -> matrix -> matrix -> bool -> result (solved matrix).
Variable solve_qp_l1 :
  nat -> sigma_value -> vector -> float64 -> bool -> result (solved vector).

Let fit' := fit ERRORS_HANDLING eig solve_sdp solve_qp_l1.

(** A [fit] call whose labels have another length than [X] has rows, or
    are a two-dimensional array, raises an AssertionError and leaves the
    object exactly as it was: nothing is assigned before these checks. *)
Theorem fit_rejects_bad_shapes (X : matrix) (y : labels) (s : HMLasso) :
  shape0 X <> labels_shape0 y \/ (exists m, y = Labels2 m) ->
  exists msg, fit' X y s = (Raise (AssertionError msg), s).
Proof.
  intros H.
  destruct (Nat.eq_dec (shape0 X) (labels_shape0 y)) as [Heq|Hne].
  - destruct H as [H|[m ->]]; [contradiction|].
    eexists. apply fit_labels_not_vector. exact Heq.
  - eexists. apply fit_shape_mismatch. exact Hne.
Qed.

(** Where a [fit] call can end, whatever its arguments. *)
Lemma fit_cases (X : matrix) (y : labels) (s : HMLasso) :
  (exists e, fit' X y s = (Raise e, s)) \/
  (exists e, fit' X y s = (Raise e, after_checks X s)) \/
  (exists y1, y = Labels1 y1 /\
              fit_end ERRORS_HANDLING eig solve_sdp solve_qp_l1 X y1 s
                      (fit' X y s)).
Proof.
  destruct y as [y|m].
  - destruct (Nat.eq_dec (shape0 X) (size y)) as [Hs|Hs].
    + destruct (first_off_center X (seq 0 (shape1 X))) as [[col mean]|] eqn:Hc.
      * right. left. eexists.
        apply (@fit_not_centered ERRORS_HANDLING eig solve_sdp solve_qp_l1
                 X y s col mean Hs Hc).
      * right. right. exists y. split; [reflexivity|].
        now apply fit_past_checks.
    + left. eexists. now apply fit_shape_mismatch.
  - left. destruct (Nat.eq_dec (shape0 X) (shape0 m)) as [Hs|Hs].
    + eexists. now apply fit_labels_not_vector.
    + eexists. now apply fit_shape_mismatch.
Qed.

(** However a [fit] call ends, it has not touched [mu], [alpha] or
    [verbose], and none of the three flags has gone from True to False. *)
Theorem fit_keeps_hyperparameters_and_flags
        (X : matrix) (y : labels) (s : HMLasso) :
  self.mu (snd (fit' X y s)) = self.mu s /\
  self.alpha (snd (fit' X y s)) = self.alpha s /\
  self.verbose (snd (fit' X y s)) = self.verbose s /\
  (self.isFirstProblemSolved s = true ->
   self.isFirstProblemSolved (snd (fit' X y s)) = true) /\
  (self.isSecondProblemSolved s = true ->
   self.isSecondProblemSolved (snd (fit' X y s)) = true) /\
  (self.isFitted s = true -> self.isFitted (snd (fit' X y s)) = true).
Proof.
  unfold fit'.
  destruct (fit_cases X y s) as [[e H]|[[e H]|[y1 [-> H]]]].
  - unfold fit' in H. rewrite H. cbn [snd]. tauto.
  - unfold fit' in H. rewrite H. cbn. tauto.
  - unfold fit' in H. destruct H; cbn; tauto.
Qed.

Lemma same_hyperparameters_solves (X : matrix) (y : vector) (Sigma : matrix)
      (m : complex) (s1 s2 : HMLasso) :
  same_hyperparameters s1 s2 ->
  first_solve solve_sdp X s1 = first_solve solve_sdp X s2 /\
  second_solve ERRORS_HANDLING solve_qp_l1 X y Sigma m s1 =
  second_solve ERRORS_HANDLING solve_qp_l1 X y Sigma m s2.
Proof.
  intros (Hmu & Halpha & Hverbose). unfold first_solve, second_solve.
  rewrite Hmu, Halpha, Hverbose. split; reflexivity.
Qed.

Lemma same_hyperparameters_fitted (X : matrix) (y : vector) (Sigma : matrix)
      (m : complex) (beta : option vector) (s1 s2 : HMLasso) :
  same_hyperparameters s1 s2 ->
  fitted ERRORS_HANDLING X y Sigma m beta s1 =
  fitted ERRORS_HANDLING X y Sigma m beta s2.
Proof.
  intros (Hmu & Halpha & Hverbose). destruct s1, s2.
  cbn in Hmu, Halpha, Hverbose. subst. reflexivity.
Qed.

(** [fit] reads nothing of the object but [mu], [alpha] and [verbose]:
    on two objects that agree on these, the same call has the same outcome,
    and when it returns it leaves the two objects equal.  A fit that
    completes leaves no trace of what the object held before. *)
Theorem fit_leaves_no_residue
        (X : matrix) (y : labels) (s1 s2 : HMLasso) :
  same_hyperparameters s1 s2 ->
  fst (fit' X y s1) = fst (fit' X y s2) /\
  (is_ok (fst (fit' X y s1)) = true -> snd (fit' X y s1) = snd (fit' X y s2)).
Proof.
  intros Hsame.
  destruct y as [y|m].
  - destruct (Nat.eq_dec (shape0 X) (size y)) as [Hs|Hs].
    + destruct (first_off_center X (seq 0 (shape1 X))) as [[col mean]|] eqn:Hc.
      * unfold fit'.
        rewrite (@fit_not_centered ERRORS_HANDLING eig solve_sdp solve_qp_l1
                   X y s1 col mean Hs Hc).
        rewrite (@fit_not_centered ERRORS_HANDLING eig solve_sdp solve_qp_l1
                   X y s2 col mean Hs Hc).
        cbn. split; [reflexivity|discriminate].
      * unfold fit'.
        destruct (@fit_past_checks ERRORS_HANDLING eig solve_sdp
                    solve_qp_l1 X y s1 Hs Hc) as
            [e H1|st H1|st Sigma e H1 H2|st Sigma evs m e H1 H2 H3 H4
             |st1 st2 Sigma evs m beta H1 H2 H3 H4];
          rewrite (proj1 (same_hyperparameters_solves X y (np.eye 0)
                            (mkC NaN NaN) Hsame)) in H1.
        -- rewrite (@fit_first_solve_raises ERRORS_HANDLING eig solve_sdp
                      solve_qp_l1 X y s2 e Hs Hc H1).
           cbn. split; [reflexivity|discriminate].
        -- rewrite (@fit_first_solve_no_value ERRORS_HANDLING eig solve_sdp
                      solve_qp_l1 X y s2 st Hs Hc H1).
           cbn. split; [reflexivity|discriminate].
        -- destruct H2 as [He|[evs [He1 He2]]].
           ++ rewrite (@fit_eig_raises ERRORS_HANDLING eig solve_sdp
                         solve_qp_l1 X y s2 st Sigma e Hs Hc H1 He).
              cbn. split; [reflexivity|discriminate].
           ++ rewrite (@fit_min_raises ERRORS_HANDLING eig solve_sdp
                         solve_qp_l1 X y s2 st Sigma evs e Hs Hc H1 He1 He2).
              cbn. split; [reflexivity|discriminate].
        -- rewrite (proj2 (same_hyperparameters_solves X y Sigma m Hsame))
             in H4.
           rewrite (@fit_second_solve_raises ERRORS_HANDLING eig solve_sdp
                      solve_qp_l1 X y s2 st Sigma evs m e Hs Hc H1 H2 H3 H4).
           cbn. split; [reflexivity|discriminate].
        -- rewrite (proj2 (same_hyperparameters_solves X y Sigma m Hsame))
             in H4.
           rewrite (@fit_completes ERRORS_HANDLING eig solve_sdp
                      solve_qp_l1 X y s2 st1 st2 Sigma evs m beta
                      Hs Hc H1 H2 H3 H4).
           cbn [fst snd]. split; [reflexivity|].
           intros _. now apply same_hyperparameters_fitted.
    + unfold fit'. rewrite !fit_shape_mismatch by exact Hs.
      cbn. split; [reflexivity|discriminate].
  - destruct (Nat.eq_dec (shape0 X) (shape0 m)) as [Hs|Hs]; unfold fit'.
    + rewrite !fit_labels_not_vector by exact Hs.
      cbn. split; [reflexivity|discriminate].
    + rewrite !fit_shape_mismatch by exact Hs.
      cbn. split; [reflexivity|discriminate].
Qed.

End FitFurther.

Lemma fit_rejects_bad_shapes_witness :
  exists msg,
    fit "raise" eig_of_diagonal (sdp_returns OPTIMAL)
        (qp_returns OPTIMAL (Some beta_2)) X_pm1 (Labels2 y_2d) fresh =
    (Raise (AssertionError msg), fresh).
Proof.
  apply (@fit_rejects_bad_shapes "raise" eig_of_diagonal (sdp_returns OPTIMAL)
           (qp_returns OPTIMAL (Some beta_2)) X_pm1 (Labels2 y_2d) fresh).
  right. exists y_2d. reflexivity.
Defined.

Lemma fit_leaves_no_residue_witness :
  fst (fit "raise" eig_of_diagonal (sdp_returns OPTIMAL)
           (qp_returns OPTIMAL (Some beta_2)) X_pm1 (Labels1 y_35) fresh) =
  fst (fit "raise" eig_of_diagonal (sdp_returns OPTIMAL)
           (qp_returns OPTIMAL (Some beta_2)) X_pm1 (Labels1 y_35)
           (after_checks X_off_center fitted_pm1)) /\
  (is_ok (fst (fit "raise" eig_of_diagonal (sdp_returns OPTIMAL)
                   (qp_returns OPTIMAL (Some beta_2)) X_pm1 (Labels1 y_35)
                   fresh)) = true ->
   snd (fit "raise" eig_of_diagonal (sdp_returns OPTIMAL)
            (qp_returns OPTIMAL (Some beta_2)) X_pm1 (Labels1 y_35) fresh) =
   snd (fit "raise" eig_of_diagonal (sdp_returns OPTIMAL)
            (qp_returns OPTIMAL (Some beta_2)) X_pm1 (Labels1 y_35)
            (after_checks X_off_center fitted_pm1))).
Proof.
  apply (@fit_leaves_no_residue "raise" eig_of_diagonal (sdp_returns OPTIMAL)
           (qp_returns OPTIMAL (Some beta_2)) X_pm1 (Labels1 y_35) fresh
           (after_checks X_off_center fitted_pm1)).
  repeat split.
Defined.

(** ** More on the imputed parameters *)

Lemma count_rows_le (f g : nat -> bool) (n : nat) :
  (forall k, k < n -> f k = true -> g k = true) ->
  (count_rows f n <= count_rows g n)%Z.
Proof.
  unfold count_rows. induction n as [|n IH]; intros H; [cbn; lia|].
  cbn [isum]. specialize (IH (fun k Hk => H k (Nat.lt_lt_succ_r _ _ Hk))).
  specialize (H n (Nat.lt_succ_diag_r n)).
  destruct (f n), (g n); try lia; discriminate (H eq_refl).
Qed.

Lemma count_rows_none (f : nat -> bool) (n : nat) :
  (forall k, k < n -> f k = false) -> count_rows f n = 0%Z.
Proof.
  unfold count_rows. induction n as [|n IH]; intros H; [reflexivity|].
  cbn [isum]. rewrite IH by (intros; apply H; lia).
  rewrite H by lia. reflexivity.
Qed.

Lemma R_raw_sym (X : matrix) (i j : nat) :
  item (R_raw X) i j = item (R_raw X) j i.
Proof.
  rewrite !R_raw_item. unfold count_rows. apply isum_ext. intros k _.
  rewrite andb_comm. reflexivity.
Qed.

(** The count matrix is symmetric, and the count of a pair is at most the
    count of either feature alone. *)
Theorem R_raw_symmetric_and_bounded (X : matrix) (i j : nat) :
  item (R_raw X) i j = item (R_raw X) j i /\
  (item (R_raw X) i j <= item (R_raw X) i i)%Z /\
  (item (R_raw X) i j <= item (R_raw X) j j)%Z.
Proof.
  split; [apply R_raw_sym|]. rewrite !R_raw_item. split.
  - apply count_rows_le. intros k _ H.
    apply andb_prop in H. destruct H as [H _]. rewrite H. reflexivity.
  - apply count_rows_le. intros k _ H.
    apply andb_prop in H. destruct H as [_ H]. rewrite H. reflexivity.
Qed.

Lemma fmul_comm (x y : float64) : fmul x y = fmul y x.
Proof.
  destruct x as [| | |a], y as [| | |b]; unfold fmul, sign;
    try reflexivity;
    try (destruct (Rlt_b 0 a); [reflexivity|];
         destruct (Rlt_b a 0); reflexivity);
    try (destruct (Rlt_b 0 b); [reflexivity|];
         destruct (Rlt_b b 0); reflexivity).
  f_equal. apply Rmult_comm.
Qed.

(** The pairwise covariance matrix and the weight matrix that
    [__impute_params__] returns are symmetric. *)
Theorem imputed_matrices_symmetric
        (X : matrix) (alpha : float64) (i j : nat) :
  item (S_pair_of X) i j = item (S_pair_of X) j i /\
  item (R_of X alpha) i j = item (R_of X alpha) j i.
Proof.
  pose proof (R_raw_sym X i j) as Hsym.
  split.
  - rewrite !S_pair_of_item, Hsym.
    destruct (Z.eqb (item (R_raw X) j i) 0); [reflexivity|].
    f_equal. apply fsum_ext. intros k _. apply fmul_comm.
  - unfold R_of, np.power, np.map2d. cbn [item].
    rewrite !R_normalized_item, Hsym. reflexivity.
Qed.

Lemma fsum_nonnegative (f : nat -> float64) (n : nat) :
  (forall k, k < n -> exists r, f k = Fin r /\ (0 <= r)%R) ->
  exists t, fsum f n = Fin t /\ (0 <= t)%R.
Proof.
  induction n as [|n IH]; intros H.
  - exists 0%R. split; [reflexivity|lra].
  - destruct IH as [t [Ht Ht0]]; [intros; apply H; lia|].
    destruct (H n) as [r [Hr Hr0]]; [lia|].
    exists (t + r)%R. cbn [fsum]. rewrite Ht, Hr. split; [reflexivity|lra].
Qed.

(** No diagonal entry of [S_pair] is NaN or negative: each passes the
    test [>= 0]. *)
Theorem S_pair_diagonal_nonnegative (X : matrix) (i : nat) :
  nonnegative (item (S_pair_of X) i i) /\
  fge (item (S_pair_of X) i i) (Fin 0) = true.
Proof.
  assert (H : nonnegative (item (S_pair_of X) i i)).
  { rewrite S_pair_of_item.
    destruct (Z.eqb_spec (item (R_raw X) i i) 0) as [_|Hc].
    - cbn. lra.
    - destruct (@fsum_nonnegative
                  (fun k => fmul (item (Z_of X) k i) (item (Z_of X) k i))
                  (shape0 X)) as [t [Ht Ht0]].
      { intros k _. destruct (isfinite_Fin _ (Z_of_finite X k i)) as [z ->].
        exists (z * z)%R. split; [reflexivity|nra]. }
      rewrite Ht. pose proof (R_raw_bounds X i i) as [Hlo _].
      assert (Hpos : (0 < IZR (item (R_raw X) i i))%R)
        by (apply IZR_lt; lia).
      unfold fdiv, of_Z.
      replace (Req_b (IZR (item (R_raw X) i i)) 0) with false
        by (symmetry; apply Req_b_false; lra).
      cbn [nonnegative].
      apply Rmult_le_pos; [exact Ht0|]. left. now apply Rinv_0_lt_compat. }
  split; [exact H|]. now apply fge_zero_nonnegative.
Qed.

Lemma pow_zero_base (b : R) : (0 < b)%R -> pow (Fin 0) (Fin b) = Fin 0.
Proof. intros Hb. unfold pow. Rdecide. reflexivity. Qed.

(** A feature none of whose entries is counted -- each is missing or
    zero -- has zero counts with every feature, a zero row and column in
    [S_pair] and a zero entry in [rho_pair]; with at least one row and a
    finite [alpha > 0] its weights are all zero. *)
Theorem never_counted_feature_is_zeroed
        (X : matrix) (y : vector) (i : nat) :
  never_counted X i ->
  forall j,
    item (R_raw X) i j = 0%Z /\
    item (S_pair_of X) i j = Fin 0 /\
    item (S_pair_of X) j i = Fin 0 /\
    item1 (rho_pair_of X y) i = Fin 0 /\
    (forall a, 0 < shape0 X -> (0 < a)%R ->
               item (R_of X (Fin a)) i j = Fin 0 /\
               item (R_of X (Fin a)) j i = Fin 0).
Proof.
  intros Hnever j.
  assert (Hrow : forall c, item (R_raw X) i c = 0%Z).
  { intros c. rewrite R_raw_item. apply count_rows_none.
    intros k Hk. rewrite (Hnever k Hk). reflexivity. }
  assert (Hcol : forall c, item (R_raw X) c i = 0%Z).
  { intros c. rewrite (R_raw_sym X c i).
    apply Hrow. }
  split; [apply Hrow|].
  split; [rewrite S_pair_of_item, Hrow; reflexivity|].
  split; [rewrite S_pair_of_item, Hcol; reflexivity|].
  split; [rewrite rho_pair_of_item, Hrow; reflexivity|].
  intros a Hn Ha.
  assert (Hnz : INR (shape0 X) <> 0%R) by (apply not_0_INR; lia).
  assert (Hzero : fdiv (of_Z 0) (of_nat (shape0 X)) = Fin 0).
  { unfold fdiv, of_Z, of_nat.
    replace (Req_b (INR (shape0 X)) 0) with false
      by (symmetry; now apply Req_b_false).
    f_equal. unfold Rdiv. apply Rmult_0_l. }
  unfold R_of, np.power, np.map2d. cbn [item].
  rewrite !R_normalized_item, Hrow, Hcol, Hzero.
  split; now apply pow_zero_base.
Qed.

Lemma X_zero_column_never_counted : never_counted X_zero_column 1.
Proof.
  intros k Hk. cbn in Hk.
  destruct k as [|[|k]]; [| |lia];
    unfold counted, fne, feq, X_zero_column; cbn; Rdecide; reflexivity.
Qed.

Lemma never_counted_feature_is_zeroed_witness :
  item (R_raw X_zero_column) 1 0 = 0%Z /\
  item (S_pair_of X_zero_column) 1 0 = Fin 0 /\
  item (S_pair_of X_zero_column) 0 1 = Fin 0 /\
  item1 (rho_pair_of X_zero_column y_12) 1 = Fin 0 /\
  (forall a, 0 < shape0 X_zero_column -> (0 < a)%R ->
             item (R_of X_zero_column (Fin a)) 1 0 = Fin 0 /\
             item (R_of X_zero_column (Fin a)) 0 1 = Fin 0).
Proof.
  apply (@never_counted_feature_is_zeroed X_zero_column y_12 1
           X_zero_column_never_counted 0).
Defined.

(** With [alpha = 0] every weight is 1, whatever the data -- for pairs
    never observed together and for a matrix without rows as well.  With
    [alpha = 1], the default, and at least one row, the weights are the
    counts over [n]. *)
Theorem weights_at_alpha_zero_and_one (X : matrix) (i j : nat) :
  item (R_of X (Fin 0)) i j = Fin 1 /\
  (0 < shape0 X ->
   item (R_of X (Fin 1)) i j = item (R_normalized X) i j).
Proof.
  split.
  - unfold R_of, np.power, np.map2d. cbn [item]. unfold pow.
    destruct (item (R_normalized X) i j); Rdecide; reflexivity.
  - intros Hn. unfold R_of, np.power, np.map2d. cbn [item].
    destruct (in_unit_interval_inv _ (@R_normalized_unit_interval X i j Hn))
      as [a [-> [Ha0 Ha1]]].
    unfold pow. Rdecide.
    destruct (Rlt_dec 0 a) as [Hpos|Hnpos].
    + pose proof Hpos as Hb. apply Rlt_b_true in Hb. rewrite Hb.
      f_equal. now apply Rpower_1.
    + assert (a = 0%R) as -> by lra. Rdecide. reflexivity.
Qed.

Lemma Rpower_antitone (a b1 b2 : R) :
  (0 < a <= 1)%R -> (b1 <= b2)%R -> (Rpower a b2 <= Rpower a b1)%R.
Proof.
  intros [Ha0 Ha1] Hb. unfold Rpower.
  assert (Hln : (ln a <= 0)%R).
  { destruct Ha1 as [Ha1| ->]; [|rewrite ln_1; lra].
    left. rewrite <- ln_1. now apply ln_increasing. }
  destruct (Req_dec_T (b2 * ln a) (b1 * ln a)) as [->|Hne]; [lra|].
  left. apply exp_increasing. nra.
Qed.

(** A larger finite exponent never gives a larger weight: for
    [0 <= a1 <= a2] and at least one row, each weight under [a2] is at most
    the weight under [a1], both being numbers of [0,1]. *)
Theorem weights_decrease_with_alpha (X : matrix) (a1 a2 : R) (i j : nat) :
  0 < shape0 X ->
  (0 <= a1 <= a2)%R ->
  exists w1 w2,
    item (R_of X (Fin a1)) i j = Fin w1 /\
    item (R_of X (Fin a2)) i j = Fin w2 /\
    (0 <= w2 <= w1)%R /\ (w1 <= 1)%R.
Proof.
  intros Hn [Ha1 Ha12].
  unfold R_of, np.power, np.map2d. cbn [item].
  destruct (in_unit_interval_inv _ (@R_normalized_unit_interval X i j Hn))
    as [x [-> [Hx0 Hx1]]].
  unfold pow.
  destruct (Req_dec_T a1 0) as [->|Hz1].
  - (* a1 = 0: the weight under a1 is 1 *)
    replace (Req_b 0 0) with true by (symmetry; now apply Req_b_true).
    destruct (Req_dec_T a2 0) as [->|Hz2].
    + replace (Req_b 0 0) with true by (symmetry; now apply Req_b_true).
      exists 1%R, 1%R. repeat split; lra.
    + replace (Req_b a2 0) with false by (symmetry; now apply Req_b_false).
      destruct (Rlt_dec 0 x) as [Hpos|Hnpos].
      * replace (Rlt_b 0 x) with true by (symmetry; now apply Rlt_b_true).
        exists 1%R, (Rpower x a2).
        pose proof (@Rpower_unit_interval x a2) as Hp.
        repeat split; lra.
      * assert (x = 0%R) as -> by lra. Rdecide.
        exists 1%R, 0%R. repeat split; lra.
  - replace (Req_b a1 0) with false by (symmetry; now apply Req_b_false).
    replace (Req_b a2 0) with false by (symmetry; apply Req_b_false; lra).
    destruct (Rlt_dec 0 x) as [Hpos|Hnpos].
    + replace (Rlt_b 0 x) with true by (symmetry; now apply Rlt_b_true).
      exists (Rpower x a1), (Rpower x a2).
      pose proof (@Rpower_unit_interval x a1) as Hp1.
      pose proof (@Rpower_unit_interval x a2) as Hp2.
      pose proof (@Rpower_antitone x a1 a2) as Hp3.
      repeat split; lra.
    + assert (x = 0%R) as -> by lra. Rdecide.
      exists 0%R, 0%R. repeat split; lra.
Qed.

Lemma weights_decrease_with_alpha_witness :
  exists w1 w2,
    item (R_of X_zero_column (Fin (1 / 2))) 0 0 = Fin w1 /\
    item (R_of X_zero_column (Fin 2)) 0 0 = Fin w2 /\
    (0 <= w2 <= w1)%R /\ (w1 <= 1)%R.
Proof.
  apply (@weights_decrease_with_alpha X_zero_column (1 / 2) 2 0 0).
  - cbn. lia.
  - lra.
Defined.

Lemma Y_of_same (X X' : matrix) (k i : nat) :
  np.nan_to_num1 (item X k i) = np.nan_to_num1 (item X' k i) ->
  item (Y_of X) k i = item (Y_of X') k i.
Proof.
  intros H. unfold Y_of, Z_of, np.astype_int, np.ne0, np.nan_to_num, np.map2d.
  cbn [item]. rewrite H. reflexivity.
Qed.

(** The imputer sees [X] through [np.nan_to_num] only: two matrices of
    the same shape that agree after the zero-imputation -- one may hold NaN
    where the other holds 0.0 -- give the same S_pair, rho_pair and R. *)
Theorem imputer_cannot_tell_missing_from_zero
        (X X' : matrix) (y : vector) (alpha : float64) :
  shape0 X = shape0 X' ->
  shape1 X = shape1 X' ->
  (forall k i, k < shape0 X ->
               np.nan_to_num1 (item X k i) = np.nan_to_num1 (item X' k i)) ->
  forall i j,
    item (S_pair_of X) i j = item (S_pair_of X') i j /\
    item1 (rho_pair_of X y) i = item1 (rho_pair_of X' y) i /\
    item (R_of X alpha) i j = item (R_of X' alpha) i j.
Proof.
  intros H0 H1 Hsame i j.
  assert (HR : forall a b, item (R_raw X) a b = item (R_raw X') a b).
  { intros a b. unfold R_raw, np.dot_int. cbn [item shape1 np.T].
    change (shape0 (Y_of X)) with (shape0 X).
    change (shape0 (Y_of X')) with (shape0 X'). rewrite <- H0.
    apply isum_ext. intros k Hk.
    rewrite (@Y_of_same X X' k a), (@Y_of_same X X' k b) by now apply Hsame.
    reflexivity. }
  assert (HZ : forall k c, k < shape0 X ->
                           item (Z_of X) k c = item (Z_of X') k c).
  { intros k c Hk. unfold Z_of, np.nan_to_num, np.map2d. cbn [item].
    now apply Hsame. }
  split; [|split].
  - rewrite !S_pair_of_item, HR, <- H0.
    destruct (Z.eqb (item (R_raw X') i j) 0); [reflexivity|].
    f_equal. apply fsum_ext. intros k Hk. rewrite !HZ by exact Hk.
    reflexivity.
  - rewrite !rho_pair_of_item, HR, <- H0.
    destruct (Z.eqb (item (R_raw X') i i) 0); [reflexivity|].
    f_equal. apply fsum_ext. intros k Hk. rewrite !HZ by exact Hk.
    reflexivity.
  - unfold R_of, np.power, np.map2d. cbn [item].
    rewrite !R_normalized_item, HR, H0. reflexivity.
Qed.

Lemma imputer_cannot_tell_missing_from_zero_witness :
  item (S_pair_of X_zero_column) 0 1 = item (S_pair_of X_nan_column) 0 1 /\
  item1 (rho_pair_of X_zero_column y_12) 0 =
  item1 (rho_pair_of X_nan_column y_12) 0 /\
  item (R_of X_zero_column (Fin 1)) 0 1 = item (R_of X_nan_column (Fin 1)) 0 1.
Proof.
  apply (@imputer_cannot_tell_missing_from_zero
           X_zero_column X_nan_column y_12 (Fin 1)).
  - reflexivity.
  - reflexivity.
  - intros k i Hk. cbn in Hk.
    destruct k as [|[|k]]; [| |lia]; destruct i as [|[|i]]; reflexivity.
Defined.

(** On complete data without a zero entry and with at least one row, the
    imputer gives the complete-data estimates: S_pair is (1/n) X^T X and
    rho_pair is (1/n) X^T y, entry by entry. *)
Theorem imputer_on_complete_nonzero_data
        (X : matrix) (y : vector) (i j : nat) :
  0 < shape0 X ->
  (forall k c, k < shape0 X -> c < shape1 X ->
               exists r, item X k c = Fin r /\ r <> 0%R) ->
  (forall k, k < shape0 X -> isfinite (item1 y k) = true) ->
  i < shape1 X ->
  j < shape1 X ->
  same_number (item (S_pair_of X) i j) (item (complete_covariance X) i j) /\
  same_number (item1 (rho_pair_of X y) i)
              (item1 (complete_cross_covariance X y) i).
Proof.
  intros Hn HX Hy Hi Hj.
  assert (Hcount : forall a b, a < shape1 X -> b < shape1 X ->
                               item (R_raw X) a b = Z.of_nat (shape0 X)).
  { intros a b Ha Hb. rewrite R_raw_item. apply count_rows_all. intros k Hk.
    destruct (HX k a Hk Ha) as [ra [Hra Hra0]].
    destruct (HX k b Hk Hb) as [rb [Hrb Hrb0]].
    unfold counted, fne, feq. rewrite Hra, Hrb. cbn.
    apply Req_b_false in Hra0, Hrb0. rewrite Hra0, Hrb0. reflexivity. }
  assert (HZ : forall k a, k < shape0 X -> a < shape1 X ->
                           item (Z_of X) k a = item X k a).
  { intros k a Hk Ha. destruct (HX k a Hk Ha) as [r [Hr _]].
    rewrite Hr. now apply Z_of_finite_entry. }
  assert (Hnz : INR (shape0 X) <> 0%R) by (apply not_0_INR; lia).
  assert (Hz : Z.eqb (Z.of_nat (shape0 X)) 0 = false)
    by (apply Z.eqb_neq; lia).
  split.
  - rewrite S_pair_of_item, Hcount, Hz by assumption.
    cbn [complete_covariance item].
    rewrite (fsum_ext (fun k => fmul (item (Z_of X) k i) (item (Z_of X) k j))
                      (fun k => fmul (item X k i) (item X k j)))
      by (intros k Hk; rewrite !HZ by assumption; reflexivity).
    assert (Hs : isfinite (fsum (fun k => fmul (item X k i) (item X k j))
                                (shape0 X)) = true).
    { apply fsum_finite. intros k Hk.
      destruct (HX k i Hk Hi) as [ra [-> _]].
      destruct (HX k j Hk Hj) as [rb [-> _]]. reflexivity. }
    destruct (isfinite_Fin _ Hs) as [t ->].
    unfold fdiv, fmul, of_Z, of_nat. rewrite <- INR_IZR_INZ.
    apply Req_b_false in Hnz. rewrite Hnz. cbn. field.
    now apply Req_b_false.
  - rewrite rho_pair_of_item, Hcount, Hz by assumption.
    cbn [complete_cross_covariance item1].
    rewrite (fsum_ext (fun k => fmul (item (Z_of X) k i) (item1 y k))
                      (fun k => fmul (item X k i) (item1 y k)))
      by (intros k Hk; rewrite !HZ by assumption; reflexivity).
    assert (Hs : isfinite (fsum (fun k => fmul (item X k i) (item1 y k))
                                (shape0 X)) = true).
    { apply fsum_finite. intros k Hk.
      destruct (HX k i Hk Hi) as [ra [-> _]].
      destruct (isfinite_Fin _ (Hy k Hk)) as [ry ->]. reflexivity. }
    destruct (isfinite_Fin _ Hs) as [t ->].
    unfold fdiv, fmul, of_Z, of_nat. rewrite <- INR_IZR_INZ.
    apply Req_b_false in Hnz. rewrite Hnz. cbn. field.
    now apply Req_b_false.
Qed.

Lemma imputer_on_complete_nonzero_data_witness :
  same_number (item (S_pair_of X_pm1) 0 0)
              (item (complete_covariance X_pm1) 0 0) /\
  same_number (item1 (rho_pair_of X_pm1 y_35) 0)
              (item1 (complete_cross_covariance X_pm1 y_35) 0).
Proof.
  apply (@imputer_on_complete_nonzero_data X_pm1 y_35 0 0).
  - cbn. lia.
  - intros k c Hk Hc. cbn in Hk, Hc.
    assert (c = 0) as -> by lia.
    destruct k as [|[|k]]; [| |lia].
    + exists 1%R. split; [reflexivity|lra].
    + exists (-1)%R. split; [reflexivity|lra].
  - intros k Hk. cbn in Hk. destruct k as [|[|k]]; [| |lia]; reflexivity.
  - cbn. lia.
  - cbn. lia.
Defined.

(** ** The solver methods called on their own *)

(** [__solve_first_problem__] and [__solve_second_problem__] refuse an
    object that is not prepared for them -- S_pair, rho_pair or R unset;
    for the second also the first-problem flag or Sigma_opt unset -- with
    an AssertionError, before the solver is called and without changing
    the object. *)
Theorem solvers_refuse_unprepared
        (solve_sdp : nat -> matrix -> matrix -> bool -> result (solved matrix))
        (solve_qp_l1 : nat -> sigma_value -> vector -> float64 -> bool ->
                       result (solved vector))
        (s : HMLasso) :
  (is_some (self.S_pair s) && is_some (self.rho_pair s)
   && is_some (self.R s) = false ->
   exists msg,
     solve_first_problem solve_sdp s = (Raise (AssertionError msg), s)) /\
  (is_some (self.S_pair s) && is_some (self.rho_pair s)
   && is_some (self.R s) && self.isFirstProblemSolved s
   && is_some (self.Sigma_opt s) = false ->
   exists msg,
     solve_second_problem solve_qp_l1 s = (Raise (AssertionError msg), s)).
Proof.
  unfold solve_first_problem, solve_second_problem. munfold. split.
  - intros H.
    destruct (self.S_pair s); [|eexists; reflexivity].
    destruct (self.rho_pair s); [|eexists; reflexivity].
    destruct (self.R s); [discriminate|eexists; reflexivity].
  - intros H.
    destruct (self.S_pair s); [|eexists; reflexivity].
    destruct (self.rho_pair s); [|eexists; reflexivity].
    destruct (self.R s); [|eexists; reflexivity].
    destruct (self.isFirstProblemSolved s); [|eexists; reflexivity].
    destruct (self.Sigma_opt s); [discriminate|eexists; reflexivity].
Qed.

(** ** The minimum eigenvalue *)

Lemma clt_lex (a b : complex) :
  finite_complex a -> finite_complex b ->
  (clt a b = true <-> lex_lt a b).
Proof.
  intros [Ha1 Ha2] [Hb1 Hb2]. unfold clt, lex_lt.
  destruct a as [ra ia], b as [rb ib]. cbn [re im] in *.
  destruct (isfinite_Fin _ Ha1) as [x1 ->], (isfinite_Fin _ Ha2) as [x2 ->].
  destruct (isfinite_Fin _ Hb1) as [y1 ->], (isfinite_Fin _ Hb2) as [y2 ->].
  cbn [flt feq val].
  rewrite orb_true_iff, andb_true_iff, !Rlt_b_true, Req_b_true. tauto.
Qed.

Lemma clt_false_lex (a b : complex) :
  finite_complex a -> finite_complex b ->
  (clt a b = false <-> ~ lex_lt a b).
Proof.
  intros Ha Hb. rewrite <- (clt_lex Ha Hb).
  destruct (clt a b); split; intros; try congruence; tauto.
Qed.

Lemma fold_min_least (rest : list complex) (acc : complex) :
  finite_complex acc ->
  (forall c, In c rest -> finite_complex c) ->
  let m := fold_left (fun m x => if clt x m then x else m) rest acc in
  finite_complex m /\
  (m = acc \/ In m rest) /\
  ~ lex_lt acc m /\
  forall c, In c rest -> ~ lex_lt c m.
Proof.
  revert acc. induction rest as [|x rest IH]; intros acc Hacc Hrest; cbn zeta.
  - cbn [fold_left]. split; [exact Hacc|]. split; [now left|]. split.
    + unfold lex_lt. intros [H|[_ H]]; lra.
    + intros c [].
  - cbn [fold_left].
    assert (Hx : finite_complex x) by (apply Hrest; now left).
    assert (Hr : forall c, In c rest -> finite_complex c)
      by (intros c Hc; apply Hrest; now right).
    destruct (clt x acc) eqn:Hlt.
    + apply (clt_lex Hx Hacc) in Hlt.
      destruct (IH x Hx Hr) as (Hm & Hin & Hxm & Hall).
      split; [exact Hm|]. split; [|split].
      * right. destruct Hin as [->|Hin]; [now left|now right].
      * unfold lex_lt in *. intros Hc. apply Hxm. lra.
      * intros c [<-|Hc]; [exact Hxm|now apply Hall].
    + apply (clt_false_lex Hx Hacc) in Hlt.
      destruct (IH acc Hacc Hr) as (Hm & Hin & Hxm & Hall).
      split; [exact Hm|]. split; [|split].
      * destruct Hin as [->|Hin]; [now left|right; now right].
      * exact Hxm.
      * intros c [<-|Hc]; [|now apply Hall].
        unfold lex_lt in *. intros Hc. apply Hxm. lra.
Qed.

(** Python's [min] over a non-empty list of eigenvalues that are finite
    numbers returns one of them, and none of them is below it in numpy's
    order on complex numbers. *)
Theorem py_min_is_least (l : list complex) :
  l <> [] ->
  (forall c, In c l -> finite_complex c) ->
  exists m,
    py_min l = Ok m /\ In m l /\ forall c, In c l -> clt c m = false.
Proof.
  intros Hne Hfin. destruct l as [|c0 rest]; [contradiction|].
  assert (H0 : finite_complex c0) by (apply Hfin; now left).
  assert (Hr : forall c, In c rest -> finite_complex c)
    by (intros c Hc; apply Hfin; now right).
  destruct (fold_min_least rest H0 Hr) as (Hm & Hin & H0m & Hall).
  eexists. split; [reflexivity|]. split.
  - destruct Hin as [->|Hin]; [now left|now right].
  - intros c [<-|Hc].
    + now apply clt_false_lex.
    + apply clt_false_lex; [now apply Hr|exact Hm|now apply Hall].
Qed.

Lemma py_min_is_least_witness :
  exists m,
    py_min [mkC (Fin 1) (Fin 0); mkC (Fin (-1)) (Fin 0); mkC (Fin 3) (Fin 0)]
    = Ok m /\
    In m [mkC (Fin 1) (Fin 0); mkC (Fin (-1)) (Fin 0); mkC (Fin 3) (Fin 0)] /\
    forall c,
      In c [mkC (Fin 1) (Fin 0); mkC (Fin (-1)) (Fin 0); mkC (Fin 3) (Fin 0)] ->
      clt c m = false.
Proof.
  apply (@py_min_is_least
           [mkC (Fin 1) (Fin 0); mkC (Fin (-1)) (Fin 0); mkC (Fin 3) (Fin 0)]).
  - discriminate.
  - intros c [<-|[<-|[<-|[]]]]; split; reflexivity.
Defined.

(** ** More on the repair *)

(** The shift touches the diagonal only.  For a finite matrix and a
    minimum eigenvalue with finite parts, every off-diagonal entry keeps
    its value; a diagonal entry whose magnitude, added to that of the
    eigenvalue's real part, stays within the largest double becomes its
    value minus that real part. *)
Theorem shift_changes_diagonal_only
        (Sigma : matrix) (m : complex) (p : nat) (mr mi : R) (i j : nat) :
  finite_square Sigma p ->
  re m = Fin mr ->
  im m = Fin mi ->
  i < p ->
  j < p ->
  (Rabs (val (item Sigma i i)) + Rabs mr <= DBL_MAX)%R ->
  (i <> j -> item (shift Sigma m p) i j = item Sigma i j) /\
  item (shift Sigma m p) i i = Fin (val (item Sigma i i) - mr).
Proof.
  intros (_ & _ & Hfin) Hm Him Hi Hj _. split.
  - intros Hne. destruct (isfinite_Fin _ (Hfin i j Hi Hj)) as [a Ha].
    rewrite (@shift_item Sigma m p i j a mr mi Ha Hm Him), Ha.
    replace (Nat.eqb i j) with false by (symmetry; now apply Nat.eqb_neq).
    f_equal. lra.
  - destruct (isfinite_Fin _ (Hfin i i Hi Hi)) as [a Ha].
    rewrite (@shift_item Sigma m p i i a mr mi Ha Hm Him), Ha.
    rewrite Nat.eqb_refl. cbn [val]. f_equal. lra.
Qed.

Lemma Sigma_12_square : finite_square Sigma_12 2.
Proof.
  split; [reflexivity|]. split; [reflexivity|].
  intros i j Hi Hj.
  destruct i as [|[|i]]; [| |lia]; destruct j as [|[|j]]; try lia;
    reflexivity.
Qed.

Lemma Sigma_12_bound (i : nat) :
  i < 2 -> (Rabs (val (item Sigma_12 i i)) + Rabs (-1) <= DBL_MAX)%R.
Proof.
  intros Hi.
  assert (H2 : (2 <= DBL_MAX)%R).
  { unfold DBL_MAX. apply IZR_le. apply Z.leb_le. reflexivity. }
  replace (Rabs (-1)) with 1%R by (rewrite Rabs_left; lra).
  destruct i as [|[|i]]; [| |lia]; cbn; rewrite Rabs_R1; lra.
Qed.

Lemma shift_changes_diagonal_only_witness :
  (0 <> 1 ->
   item (shift Sigma_12 (mkC (Fin (-1)) (Fin 0)) 2) 0 1
   = item Sigma_12 0 1) /\
  item (shift Sigma_12 (mkC (Fin (-1)) (Fin 0)) 2) 0 0
  = Fin (val (item Sigma_12 0 0) - (-1)).
Proof.
  apply (@shift_changes_diagonal_only Sigma_12
           (mkC (Fin (-1)) (Fin 0)) 2 (-1) 0 0 1).
  - exact Sigma_12_square.
  - reflexivity.
  - reflexivity.
  - lia.
  - lia.
  - apply Sigma_12_bound. lia.
Defined.

Section Repair.

Variable ERRORS_HANDLING : string.
Variable eig : matrix -> result (list complex).
Variable solve_sdp : nat -> matrix -> matrix -> bool -> result (solved matrix).
Variable solve_qp_l1 :
  nat -> sigma_value -> vector -> float64 -> bool -> result (solved vector).

(** What a completed [fit] has stored as [Sigma_opt].  Take a call that
    passes its checks, in which the covariance solve returns a finite
    p x p matrix [Sigma], [min_eigenvalue] has finite parts, and the
    coefficient solve returns; let the magnitude of each diagonal entry,
    added to that of the eigenvalue's real part, stay within the largest
    double.  Then [fit] returns, and the stored matrix -- under
    [cp.psd_wrap] exactly when the flag is "ignore" -- has the shape of
    [Sigma] and its off-diagonal entries; each diagonal entry is that of
    [Sigma] when [min_eigenvalue] is not below 0, and that entry minus the
    eigenvalue's real part when it is, in either case not less than
    before; and the matrix is symmetric when [Sigma] is. *)
Theorem fit_stores_repaired_matrix
        (X : matrix) (y : vector) (s : HMLasso) (st1 st2 : status)
        (Sigma : matrix) (evs : list complex) (mr mi : R)
        (beta : option vector) :
  shape0 X = size y ->
  centered X ->
  first_solve solve_sdp X s = Ok (mkSolved st1 (Some Sigma)) ->
  eig Sigma = Ok evs ->
  py_min evs = Ok (mkC (Fin mr) (Fin mi)) ->
  second_solve ERRORS_HANDLING solve_qp_l1 X y Sigma (mkC (Fin mr) (Fin mi)) s
    = Ok (mkSolved st2 beta) ->
  finite_square Sigma (shape1 X) ->
  (forall i, i < shape1 X ->
             (Rabs (val (item Sigma i i)) + Rabs mr <= DBL_MAX)%R) ->
  exists sv,
    fst (fit ERRORS_HANDLING eig solve_sdp solve_qp_l1 X (Labels1 y) s)
      = Ok tt /\
    self.Sigma_opt
      (snd (fit ERRORS_HANDLING eig solve_sdp solve_qp_l1 X (Labels1 y) s))
      = Some sv /\
    (sv = psd_wrap (unwrap sv) <-> ERRORS_HANDLING = "ignore"%string) /\
    shape0 (unwrap sv) = shape0 Sigma /\
    shape1 (unwrap sv) = shape1 Sigma /\
    (forall i j, i < shape1 X -> j < shape1 X -> i <> j ->
                 item (unwrap sv) i j = item Sigma i j) /\
    (forall i, i < shape1 X ->
       item (unwrap sv) i i =
       Fin (if clt (mkC (Fin mr) (Fin mi)) (mkC (Fin 0) (Fin 0))
            then val (item Sigma i i) - mr
            else val (item Sigma i i)) /\
       fge (item (unwrap sv) i i) (item Sigma i i) = true) /\
    (symmetric Sigma -> symmetric (unwrap sv)).
Proof.
  intros Hs Hc H1 H2 H3 H4 Hsq Hbound.
  exists (repaired ERRORS_HANDLING Sigma (mkC (Fin mr) (Fin mi)) (shape1 X)).
  rewrite (@fit_completes ERRORS_HANDLING eig solve_sdp solve_qp_l1 X y s
             st1 st2 Sigma evs (mkC (Fin mr) (Fin mi)) beta Hs Hc H1 H2 H3 H4).
  cbn [fst snd]. split; [reflexivity|]. split; [apply fitted_Sigma_opt|].
  assert (Hun : unwrap (repaired ERRORS_HANDLING Sigma
                          (mkC (Fin mr) (Fin mi)) (shape1 X))
                = if clt (mkC (Fin mr) (Fin mi)) (mkC (Fin 0) (Fin 0))
                  then shift Sigma (mkC (Fin mr) (Fin mi)) (shape1 X)
                  else Sigma).
  { unfold repaired.
    destruct (String.eqb ERRORS_HANDLING "ignore"); reflexivity. }
  split; [|split; [|split; [|split; [|split]]]].
  - unfold repaired.
    destruct (String.eqb_spec ERRORS_HANDLING "ignore") as [He|He];
      cbn [unwrap]; split; intros H;
      try reflexivity; try exact He; try discriminate; contradiction.
  - rewrite Hun.
    destruct (clt (mkC (Fin mr) (Fin mi)) (mkC (Fin 0) (Fin 0)));
      reflexivity.
  - rewrite Hun.
    destruct (clt (mkC (Fin mr) (Fin mi)) (mkC (Fin 0) (Fin 0)));
      reflexivity.
  - intros i j Hi Hj Hne. rewrite Hun.
    destruct (clt (mkC (Fin mr) (Fin mi)) (mkC (Fin 0) (Fin 0)));
      [|reflexivity].
    destruct Hsq as (_ & _ & Hfin).
    destruct (isfinite_Fin _ (Hfin i j Hi Hj)) as [a Ha].
    rewrite (@shift_item Sigma (mkC (Fin mr) (Fin mi)) (shape1 X) i j a mr mi
               Ha eq_refl eq_refl), Ha.
    replace (Nat.eqb i j) with false by (symmetry; now apply Nat.eqb_neq).
    f_equal. lra.
  - intros i Hi. rewrite Hun.
    destruct Hsq as (_ & _ & Hfin).
    destruct (isfinite_Fin _ (Hfin i i Hi Hi)) as [a Ha].
    destruct (clt (mkC (Fin mr) (Fin mi)) (mkC (Fin 0) (Fin 0))) eqn:Hlt.
    + rewrite (@shift_item Sigma (mkC (Fin mr) (Fin mi)) (shape1 X) i i a
                 mr mi Ha eq_refl eq_refl), Ha, Nat.eqb_refl. cbn [val].
      split; [f_equal; lra|].
      assert (Hle : (mr <= 0)%R).
      { unfold clt, flt, feq in Hlt. cbn [re im] in Hlt.
        apply orb_true_iff in Hlt. destruct Hlt as [Hlt|Hlt].
        - apply Rlt_b_true in Hlt. lra.
        - apply andb_true_iff in Hlt. destruct Hlt as [Hlt _].
          apply Req_b_true in Hlt. lra. }
      unfold fge, flt, feq. apply orb_true_iff.
      destruct (Req_dec_T mr 0) as [->|Hnz].
      * right. apply Req_b_true. lra.
      * left. apply Rlt_b_true. lra.
    + rewrite Ha. cbn [val]. split; [reflexivity|].
      unfold fge, flt, feq. apply orb_true_iff. right. now apply Req_b_true.
  - apply repaired_symmetric.
Qed.

End Repair.

Lemma py_min_eigenvalues_12 :
  py_min eigenvalues_12 = Ok (mkC (Fin (-1)) (Fin 0)).
Proof.
  unfold py_min, eigenvalues_12, clt, flt, feq. cbn. Rdecide. reflexivity.
Qed.

Lemma fit_stores_repaired_matrix_witness :
  exists sv,
    fst (fit "raise" (eig_returns eigenvalues_12)
             (sdp_returns_matrix OPTIMAL Sigma_12)
             (qp_returns OPTIMAL (Some beta_20))
             X_zero_column (Labels1 y_12) fresh)
      = Ok tt /\
    self.Sigma_opt
      (snd (fit "raise" (eig_returns eigenvalues_12)
                (sdp_returns_matrix OPTIMAL Sigma_12)
                (qp_returns OPTIMAL (Some beta_20))
                X_zero_column (Labels1 y_12) fresh))
      = Some sv /\
    (sv = psd_wrap (unwrap sv) <-> "raise"%string = "ignore"%string) /\
    shape0 (unwrap sv) = shape0 Sigma_12 /\
    shape1 (unwrap sv) = shape1 Sigma_12 /\
    (forall i j, i < shape1 X_zero_column -> j < shape1 X_zero_column ->
                 i <> j -> item (unwrap sv) i j = item Sigma_12 i j) /\
    (forall i, i < shape1 X_zero_column ->
       item (unwrap sv) i i =
       Fin (if clt (mkC (Fin (-1)) (Fin 0)) (mkC (Fin 0) (Fin 0))
            then val (item Sigma_12 i i) - (-1)
            else val (item Sigma_12 i i)) /\
       fge (item (unwrap sv) i i) (item Sigma_12 i i) = true) /\
    (symmetric Sigma_12 -> symmetric (unwrap sv)).
Proof.
  apply (@fit_stores_repaired_matrix "raise" (eig_returns eigenvalues_12)
           (sdp_returns_matrix OPTIMAL Sigma_12)
           (qp_returns OPTIMAL (Some beta_20)) X_zero_column y_12 fresh
           OPTIMAL OPTIMAL Sigma_12 eigenvalues_12 (-1) 0 (Some beta_20)).
  - reflexivity.
  - exact X_zero_column_centered.
  - reflexivity.
  - reflexivity.
  - exact py_min_eigenvalues_12.
  - reflexivity.
  - exact Sigma_12_square.
  - intros i Hi. now apply Sigma_12_bound.
Defined.

(** ** The demonstration data *)

Lemma rate_test (replace_rate : float64) :
  fge replace_rate (Fin 0) && fge (Fin 1) replace_rate
  = in_unit_interval replace_rate.
Proof.
  destruct replace_rate as [| | |r]; try reflexivity.
  unfold fge, flt, feq, in_unit_interval.
  destruct (Rle_dec 0 r) as [H0|H0]; destruct (Rle_dec r 1) as [H1|H1].
  - rewrite (proj2 (Rle_b_true 0 r) H0), (proj2 (Rle_b_true r 1) H1).
    apply andb_true_iff. split; apply orb_true_iff.
    + destruct (Req_dec_T r 0) as [->|Hn].
      * right. now apply Req_b_true.
      * left. apply Rlt_b_true. lra.
    + destruct (Req_dec_T 1 r) as [<-|Hn].
      * right. now apply Req_b_true.
      * left. apply Rlt_b_true. lra.
  - rewrite (proj2 (Rle_b_false r 1) H1). rewrite andb_false_r.
    apply andb_false_iff. right. apply orb_false_iff.
    split; [apply Rlt_b_false|apply Req_b_false]; lra.
  - rewrite (proj2 (Rle_b_false 0 r) H0). cbn [andb].
    apply andb_false_iff. left. apply orb_false_iff.
    split; [apply Rlt_b_false|apply Req_b_false]; lra.
  - rewrite (proj2 (Rle_b_false 0 r) H0). cbn [andb].
    apply andb_false_iff. left. apply orb_false_iff.
    split; [apply Rlt_b_false|apply Req_b_false]; lra.
Qed.

Lemma get_Xy_run (rand : matrix) (mask : ndarray2 bool)
      (replace_rate : float64) :
  5 <= shape1 rand ->
  in_unit_interval replace_rate = true ->
  get_Xy rand mask replace_rate
  = Ok (put_nan (np.map2d (fun r => fmul (Fin 100) r) rand) mask,
        labels_of (np.map2d (fun r => fmul (Fin 100) r) rand)).
Proof.
  intros Hp Hr. unfold get_Xy. cbn [np.map2d shape1].
  rewrite rate_test, Hr.
  destruct (Nat.ltb_spec (shape1 rand) 5) as [Hlt|_]; [lia|reflexivity].
Qed.

(** [get_Xy] returns exactly when there are at least five columns and the
    replacement rate is a number in [0, 1].  With fewer columns it fails
    with IndexError on the label formula, whatever the rate; with five or
    more and a rate outside [0, 1] (or NaN) it fails with ValueError in
    [np.random.choice]. *)
Theorem get_Xy_returns_iff
        (rand : matrix) (mask : ndarray2 bool) (replace_rate : float64) :
  ((exists Xy, get_Xy rand mask replace_rate = Ok Xy) <->
   (5 <= shape1 rand /\ in_unit_interval replace_rate = true)) /\
  (shape1 rand < 5 ->
   exists msg, get_Xy rand mask replace_rate = Raise (IndexError msg)) /\
  (5 <= shape1 rand -> in_unit_interval replace_rate = false ->
   exists msg, get_Xy rand mask replace_rate = Raise (ValueError msg)).
Proof.
  unfold get_Xy. cbn [np.map2d shape1]. rewrite rate_test.
  destruct (Nat.ltb_spec (shape1 rand) 5) as [Hp|Hp].
  - split; [|split].
    + split; [intros [Xy H]; discriminate|intros [H _]; lia].
    + intros _. eexists. reflexivity.
    + intros H. lia.
  - destruct (in_unit_interval replace_rate); cbn [negb].
    + split; [|split].
      * split; [intros _; split; [exact Hp|reflexivity]|].
        intros _. eexists. reflexivity.
      * intros H. lia.
      * intros _ H. discriminate.
    + split; [|split].
      * split; [intros [Xy H]; discriminate|intros [_ H]; discriminate].
      * intros H. lia.
      * intros _ _. eexists. reflexivity.
Qed.

(** The labels are computed from the complete data, before any entry is
    replaced.  On draws from [0, 1) with at least five columns and a rate
    in [0, 1], [get_Xy] returns an [X] of the drawn shape that is NaN
    exactly where the mask is set and 100 times the draw elsewhere, and a
    label vector with one finite entry per row: the fixed combination of
    the first five features as drawn, a number between -200 and 3700,
    also in rows where those features are NaN in [X].  The labels are the
    same for every mask. *)
Theorem get_Xy_labels_ignore_mask
        (rand : matrix) (mask : ndarray2 bool) (replace_rate : float64) :
  uniform_draws rand ->
  5 <= shape1 rand ->
  in_unit_interval replace_rate = true ->
  exists X y,
    get_Xy rand mask replace_rate = Ok (X, y) /\
    shape0 X = shape0 rand /\ shape1 X = shape1 rand /\
    size y = shape0 rand /\
    (forall k i, k < shape0 rand -> i < shape1 rand ->
       item X k i = if item mask k i then NaN
                    else Fin (100 * val (item rand k i))) /\
    (forall k, k < shape0 rand ->
       exists v,
         item1 y k = Fin v /\
         v = (700 * val (item rand k 0) - 200 * val (item rand k 1)
              + 500 * val (item rand k 2) + 1900 * val (item rand k 3)
              + 600 * val (item rand k 4))%R /\
         (-200 < v < 3700)%R) /\
    (forall mask', exists X', get_Xy rand mask' replace_rate = Ok (X', y)).
Proof.
  intros Hu Hp Hr.
  eexists. eexists. split; [now apply get_Xy_run|].
  split; [reflexivity|]. split; [reflexivity|]. split; [reflexivity|].
  split; [|split].
  - intros k i Hk Hi. unfold put_nan, np.map2d. cbn [item].
    destruct (Hu k i Hk Hi) as (r & -> & _). reflexivity.
  - intros k Hk.
    destruct (Hu k 0 Hk ltac:(lia)) as (r0 & H0 & B0).
    destruct (Hu k 1 Hk ltac:(lia)) as (r1 & H1 & B1).
    destruct (Hu k 2 Hk ltac:(lia)) as (r2 & H2 & B2).
    destruct (Hu k 3 Hk ltac:(lia)) as (r3 & H3 & B3).
    destruct (Hu k 4 Hk ltac:(lia)) as (r4 & H4 & B4).
    unfold labels_of, np.map2d. cbn [item1 item].
    rewrite H0, H1, H2, H3, H4. cbn [val].
    eexists. split; [reflexivity|]. split; lra.
  - intros mask'. eexists. now apply get_Xy_run.
Qed.

Lemma rand_5_uniform : uniform_draws rand_5.
Proof.
  intros k i Hk Hi. cbn in Hk, Hi. assert (k = 0) by lia. subst k.
  destruct i as [|[|[|[|[|i]]]]]; try lia;
    (eexists; split; [reflexivity|lra]).
Qed.

Lemma get_Xy_labels_ignore_mask_witness :
  exists X y,
    get_Xy rand_5 mask_5 (Fin (3 / 10)) = Ok (X, y) /\
    shape0 X = shape0 rand_5 /\ shape1 X = shape1 rand_5 /\
    size y = shape0 rand_5 /\
    (forall k i, k < shape0 rand_5 -> i < shape1 rand_5 ->
       item X k i = if item mask_5 k i then NaN
                    else Fin (100 * val (item rand_5 k i))) /\
    (forall k, k < shape0 rand_5 ->
       exists v,
         item1 y k = Fin v /\
         v = (700 * val (item rand_5 k 0) - 200 * val (item rand_5 k 1)
              + 500 * val (item rand_5 k 2) + 1900 * val (item rand_5 k 3)
              + 600 * val (item rand_5 k 4))%R /\
         (-200 < v < 3700)%R) /\
    (forall mask', exists X', get_Xy rand_5 mask' (Fin (3 / 10)) = Ok (X', y)).
Proof.
  apply (@get_Xy_labels_ignore_mask rand_5 mask_5 (Fin (3 / 10))).
  - exact rand_5_uniform.
  - cbn. lia.
  - apply in_unit_interval_Fin. lra.
Defined.
